(** * AutoSentinels backend: anomaly detector and crew orchestrator

    A shallow embedding of
    - [backend/app/models/telemetry.py]  (TelemetryPayload and its bounds),
    - [backend/app/services/anomaly_detector.py]  (AnomalyDetector.detect),
    - [backend/app/services/crew_orchestrator.py]  (CrewOrchestrator.run_pipeline),
    - [backend/app/main.py]  (ingest_telemetry),
    followed by the properties of the threshold rules and of the pipeline's
    failure handling.

    Numbers.  Python floats are modelled as rationals [Q]: comparisons and
    the one addition of the detector are exact, decimal literals such as
    [11.3] denote the decimal number.  Binary64 rounding, infinities, NaN and
    the sign of zero are outside the model: of a sum or a difference the
    properties below state the code's own expression, or an order that
    rounding to the nearest float preserves, never a cancellation.  Python
    ints are [Z]; an int too large for a float makes [float] raise.

    Effects.  Logging, the text-generation calls, the repository, the id
    generator and the clock live in an explicit [world]; code that can raise
    runs in a state-and-exception monad over it. *)

From Stdlib Require Import QArith Qabs Lqa ZArith List Ascii String.
From stdpp Require Import gmap strings pretty.

Local Open Scope string_scope.

(** ** Python values found in a telemetry dict *)

(** The entries [detect] reads are numbers or [None]; a float entry is a
    finite number. *)
Inductive value : Type :=
| VNone
| VInt (z : Z)
| VFloat (q : Q).

Inductive exn : Type :=
| TypeError (msg : string)
| ValidationError (msg : string)
| HTTPException (status_code : Z) (detail : string)
| Exception (msg : string).

(** Truth value of an object, as tested by [or]. *)
Definition truthy (v : value) : bool :=
  match v with
  | VNone => false
  | VInt z => negb (z =? 0)%Z
  | VFloat q => negb (Qeq_bool q 0)
  end.

(** [a or b] *)
Definition py_or (a b : value) : value := if truthy a then a else b.

(** [OverflowError] is kept among the plain exceptions. *)
Definition OverflowError (msg : string) : exn := Exception msg.

(** The least magnitude of an int that [float] cannot convert: the
    midpoint between the largest binary64 number and [2 ^ 1024], which
    rounds up. *)
Definition float_int_bound : Z := (2 ^ 1024 - 2 ^ 970)%Z.

(** [float(v)]: an int beyond the binary64 range raises. *)
Definition py_float (v : value) : exn + Q :=
  match v with
  | VNone => inl (TypeError "float() argument must be a string or a real number, not 'NoneType'")
  | VInt z =>
      if (Z.abs z <? float_int_bound)%Z then inr (inject_Z z)
      else inl (OverflowError "int too large to convert to float")
  | VFloat q => inr q
  end.

(** [int(v)]: a float is truncated towards zero. *)
Definition py_int (v : value) : exn + Z :=
  match v with
  | VNone => inl (TypeError "int() argument must be a string, a bytes-like object or a real number, not 'NoneType'")
  | VInt z => inr z
  | VFloat q => inr (Z.quot (Qnum q) (Z.pos (Qden q)))
  end.

(** [d.get(k)] *)
Definition dict_get (d : gmap string value) (k : string) : value :=
  default VNone (d !! k).

(** Comparisons of floats, as booleans. *)
Definition Qleb (x y : Q) : bool := Qle_bool x y.
Definition Qgeb (x y : Q) : bool := Qle_bool y x.
Definition Qltb (x y : Q) : bool := negb (Qle_bool y x).
Definition Qgtb (x y : Q) : bool := negb (Qle_bool x y).

(** ** Fixed-point formatting, [f"{x:.1f}"] *)

(** Nearest integer to a non-negative rational, ties to even. *)
Definition round_half_even (q : Q) : Z :=
  let n := Qnum q in
  let d := Z.pos (Qden q) in
  let f := (n / d)%Z in
  match (2 * (n mod d) ?= d)%Z with
  | Lt => f
  | Gt => (f + 1)%Z
  | Eq => if Z.even f then f else (f + 1)%Z
  end.

Definition format_1f (x : Q) : string :=
  let tenths := round_half_even (Qabs x * 10) in
  (if Qltb x 0 then "-" else "")
    +:+ pretty (tenths / 10)%Z +:+ "." +:+ pretty (tenths mod 10)%Z.

(** ** models/telemetry.py *)

Record TelemetryPayload : Type := {
  vin : string;
  timestamp : Z;
  coolant_temp_c : Q;
  coolant_pressure_bar : Q;
  engine_rpm : Z;
  vibration_level : Q;
  battery_voltage : Q;
  odometer_km : Q;
  ambient_temp_c : option Q
}.

(** ASCII white space, as removed by [str.strip]. *)
Definition is_space (a : ascii) : bool :=
  let n := nat_of_ascii a in
  ((9 <=? n) && (n <=? 13) || (28 <=? n) && (n <=? 32))%nat.

(** Validator [vin_not_empty]: [v.strip()] is not empty. *)
Definition vin_not_empty (v : string) : bool :=
  existsb (fun a => negb (is_space a)) (list_ascii_of_string v).

(** The [Field] bounds and the validator: the samples that reach the
    detector through [ingest_telemetry]. *)
Definition in_range (p : TelemetryPayload) : bool :=
  vin_not_empty (vin p)
  && Qgeb (coolant_temp_c p) (-40) && Qleb (coolant_temp_c p) 200
  && Qgeb (coolant_pressure_bar p) 0 && Qleb (coolant_pressure_bar p) 5
  && (0 <=? engine_rpm p)%Z && (engine_rpm p <=? 9000)%Z
  && Qgeb (vibration_level p) 0 && Qleb (vibration_level p) 100
  && Qgeb (battery_voltage p) 0 && Qleb (battery_voltage p) 24
  && Qgeb (odometer_km p) 0
  && match ambient_temp_c p with
     | None => true
     | Some a => Qgeb a (-50) && Qleb a 70
     end.

(** [payload.dict()], restricted to the numeric entries (the [vin] and
    [timestamp] entries, which [detect] never reads, have no [value]). *)
Definition to_dict (p : TelemetryPayload) : gmap string value :=
  <["coolant_temp_c" := VFloat (coolant_temp_c p)]>
  (<["coolant_pressure_bar" := VFloat (coolant_pressure_bar p)]>
  (<["engine_rpm" := VInt (engine_rpm p)]>
  (<["vibration_level" := VFloat (vibration_level p)]>
  (<["battery_voltage" := VFloat (battery_voltage p)]>
  (<["odometer_km" := VFloat (odometer_km p)]>
  (<["ambient_temp_c" := from_option VFloat VNone (ambient_temp_c p)]> ∅)))))).

(** What a caller may hand to [detect]: a dict, a model with a [dict()]
    method, or an object whose [dict()] call raises. *)
Inductive payload_arg : Type :=
| PDict (d : gmap string value)
| PModel (p : TelemetryPayload)
| PObject.

(** ** The logger *)

Inductive log_level : Type := INFO | ERROR.

Inductive log_arg : Type :=
| AStr (s : string)
| AOpt (o : option string)
| ADict (d : gmap string value)
| AExn (e : exn).

Record log_record : Type := LogRecord {
  levelname : log_level;
  msg : string;
  args : list log_arg
}.

(** ** services/anomaly_detector.py: AnomalyResult *)

Record AnomalyResult : Type := {
  is_anomaly : bool;
  component : option string;
  severity : option string;
  reason : option string;
  predicted_failure_km : option Q
}.

(** [AnomalyResult(is_anomaly=False)] *)
Definition no_anomaly : AnomalyResult :=
  {| is_anomaly := false; component := None; severity := None;
     reason := None; predicted_failure_km := None |}.

(** The local variables of [detect] after step 2. *)
Record readings : Type := {
  coolant_temp : Q;
  coolant_pressure : Q;
  battery : Q;
  rpm : Z;
  vibration : Q;
  odometer : Q
}.

(** Step 3, the nested helper: [increments.get(severity, 8000.0)]. *)
Definition increments : gmap string Q :=
  <["critical" := 200%Q]> (<["high" := 1000%Q]>
  (<["medium" := 5000%Q]> (<["low" := 15000%Q]> ∅))).

(** The sum is the code's [base_odometer + inc], here without the
    rounding of the float addition. *)
Definition estimate_failure_km (base_odometer : Q) (severity : string) : Q :=
  let inc := default 8000%Q (increments !! severity) in
  (base_odometer + inc)%Q.

(** ** Contexts, fault records, agents and tasks *)

(** An entry of the prompt context: a string, or a number or [None]. *)
Inductive field : Type :=
| FStr (s : string)
| FVal (v : value).

(** [getattr(anomaly, name, None)] for an optional string attribute. *)
Definition opt_str (o : option string) : field :=
  match o with Some s => FStr s | None => FVal VNone end.

Definition opt_float (o : option Q) : field :=
  match o with Some q => FVal (VFloat q) | None => FVal VNone end.

(** models/faults.py *)
Module Fault.
Record FaultRecord : Type := {
  id : string;
  vin : string;
  detected_at : Z;
  predicted_failure_km : Q;
  component : string;
  severity : string;
  raw_payload : gmap string field
}.

(** [severity: Literal["low", "medium", "high", "critical"]] *)
Definition severity_literal (s : string) : bool :=
  bool_decide (s ∈ ["low"; "medium"; "high"; "critical"]).
End Fault.

Record Agent : Type := {
  role : string;
  goal : string;
  backstory : string
}.

Record Task : Type := {
  description : string;
  agent : Agent;
  expected_output : string
}.

(** The dict returned by [run_pipeline]. *)
Record pipeline_result : Type := {
  context : gmap string field;
  crew_output : string;
  fault_id : string
}.

(** The dict returned by [ingest_telemetry]; a key that is not set is [None]. *)
Module Response.
Record t : Type := {
  status : string;
  anomaly : bool;
  message : option string;
  fault_id : option string;
  summary : option (gmap string field);
  crew_output : option string
}.
End Response.

(** ** External collaborators *)

(** repositories/base.py: the abstract [FaultRepository], over the state
    [Repo] of an implementation.  A method returns a value or raises. *)
Class FaultRepository (Repo : Type) : Type := {
  save_fault : Fault.FaultRecord -> Repo -> (exn + unit) * Repo;
  list_faults_for_vin : string -> Repo -> (exn + list Fault.FaultRecord) * Repo;
  list_recent_faults : Z -> Repo -> (exn + list Fault.FaultRecord) * Repo
}.

(** The text-generation capability behind the agents, over the state [Llm]
    of the provider: one attempt at a stage is one call, given the agent,
    the task and the outputs of the stages before it; [crew_output_str] is
    [str] of the crew's result. *)
Class TextGeneration (Llm : Type) : Type := {
  execute_task : Agent -> Task -> list string -> Llm -> (exn + string) * Llm;
  crew_output_str : list string -> string
}.

(** What the run-time supplies: [app.utils.ids.generate_id] (drawing on a
    seed), [datetime.isoformat] and [str] of a context dict. *)
Class Runtime : Type := {
  generate_id : N -> string;
  isoformat : Z -> string;
  str_context : gmap string field -> string
}.

(** A call made to a collaborator. *)
Inductive call : Type :=
| CallLlm (a : Agent) (t : Task)
| CallSave (f : Fault.FaultRecord).

(** ** The world and the monad of effectful code *)

Record world (Llm Repo : Type) : Type := World {
  w_log : list log_record;
  w_calls : list call;
  w_llm : Llm;
  w_repo : Repo;
  w_seed : N;
  w_now : Z
}.
Arguments World {Llm Repo}.
Arguments w_log {Llm Repo}.
Arguments w_calls {Llm Repo}.
Arguments w_llm {Llm Repo}.
Arguments w_repo {Llm Repo}.
Arguments w_seed {Llm Repo}.
Arguments w_now {Llm Repo}.

Section Monad.
Context {W : Type}.

(** A computation returns or raises, and leaves a world behind. *)
Definition M (A : Type) : Type := W -> (exn + A) * W.

Definition ret {A} (a : A) : M A := fun w => (inr a, w).

Definition raise {A} (e : exn) : M A := fun w => (inl e, w).

Definition bind {A B} (m : M A) (k : A -> M B) : M B :=
  fun w =>
    match m w with
    | (inr a, w') => k a w'
    | (inl e, w') => (inl e, w')
    end.

(** [try: m  except Exception as exc: h exc] *)
Definition try_except {A} (m : M A) (h : exn -> M A) : M A :=
  fun w =>
    match m w with
    | (inr a, w') => (inr a, w')
    | (inl e, w') => h e w'
    end.

(** A pure conversion that may raise. *)
Definition lift {A} (r : exn + A) : M A := fun w => (r, w).
End Monad.
Arguments M : clear implicits.

Notation "'let*' x ':=' m 'in' k" := (bind m (fun x => k))
  (at level 10, x name, m at level 100, k at level 200).

(** ** services/anomaly_detector.py: AnomalyDetector.detect *)

Definition and_then {A B} (r : exn + A) (k : A -> exn + B) : exn + B :=
  match r with
  | inl e => inl e
  | inr a => k a
  end.

(** Step 2: extract fields with defaults, [float(payload.get(k) or dflt)]. *)
Definition extract_fields (payload : gmap string value) : exn + readings :=
  and_then (py_float (py_or (dict_get payload "coolant_temp_c") (VFloat 0.0))) (fun coolant_temp =>
  and_then (py_float (py_or (dict_get payload "coolant_pressure_bar") (VFloat 0.0))) (fun coolant_pressure =>
  and_then (py_float (py_or (dict_get payload "battery_voltage") (VFloat 12.5))) (fun battery_voltage =>
  and_then (py_int (py_or (dict_get payload "engine_rpm") (VInt 0))) (fun rpm =>
  and_then (py_float (py_or (dict_get payload "vibration_level") (VFloat 0.0))) (fun vibration =>
  and_then (py_float (py_or (dict_get payload "odometer_km") (VFloat 0.0))) (fun odometer =>
  inr {| coolant_temp := coolant_temp; coolant_pressure := coolant_pressure;
         battery := battery_voltage; rpm := rpm; vibration := vibration;
         odometer := odometer |})))))).

(** Step 4, the conditions of the four rules, in the order of the source. *)
Definition coolant_rule (r : readings) : bool :=
  Qgeb (coolant_temp r) 120
  || (Qgeb (coolant_temp r) 110 && Qgeb (coolant_pressure r) 2.5).

Definition charging_rule (r : readings) : bool :=
  Qleb (battery r) 11.3.

Definition high_vibration_rule (r : readings) : bool :=
  Qgeb (vibration r) 80 && (rpm r >=? 2500)%Z.

Definition mild_vibration_rule (r : readings) : bool :=
  Qgeb (vibration r) 60 && (rpm r <? 2500)%Z.

(** The bodies of the four rules. *)
Definition coolant_result (r : readings) : AnomalyResult :=
  let severity :=
    if Qgeb (coolant_temp r) 135 then "critical"
    else if Qgeb (coolant_temp r) 125 then "high"
    else "medium" in
  let reason_parts :=
    (["Coolant temperature is high at " +:+ format_1f (coolant_temp r) +:+ "°C"]
     ++ (if Qgtb (coolant_pressure r) 0
         then ["with coolant pressure " +:+ format_1f (coolant_pressure r) +:+ " bar"]
         else [])
     ++ ["indicating poor coolant circulation or a failing coolant pump."])%list in
  let reason := String.concat " " reason_parts in
  let predicted_km := estimate_failure_km (odometer r) severity in
  {| is_anomaly := true; component := Some "coolant_pump";
     severity := Some severity; reason := Some reason;
     predicted_failure_km := Some predicted_km |}.

Definition charging_result (r : readings) : AnomalyResult :=
  let severity := if Qleb (battery r) 10.5 then "high" else "medium" in
  let reason :=
    "Battery voltage is low at " +:+ format_1f (battery r) +:+ " V, "
    +:+ "which suggests a charging system or alternator problem." in
  let predicted_km := estimate_failure_km (odometer r) severity in
  {| is_anomaly := true; component := Some "alternator";
     severity := Some severity; reason := Some reason;
     predicted_failure_km := Some predicted_km |}.

Definition high_vibration_result (r : readings) : AnomalyResult :=
  let severity := if Qltb (vibration r) 95 then "medium" else "high" in
  let reason :=
    "Vibration level is high at " +:+ format_1f (vibration r)
    +:+ " while engine RPM is " +:+ pretty (rpm r) +:+ ", "
    +:+ "indicating abnormal engine behaviour, likely an engine misfire under load." in
  let predicted_km := estimate_failure_km (odometer r) severity in
  {| is_anomaly := true; component := Some "engine_misfire";
     severity := Some severity; reason := Some reason;
     predicted_failure_km := Some predicted_km |}.

Definition mild_vibration_result (r : readings) : AnomalyResult :=
  let severity := "low" in
  let reason :=
    "Vibration level is elevated at " +:+ format_1f (vibration r)
    +:+ " with moderate RPM (" +:+ pretty (rpm r) +:+ "), "
    +:+ "which may indicate a sensor issue or minor imbalance rather than a major component failure." in
  let predicted_km := estimate_failure_km (odometer r) severity in
  {| is_anomaly := true; component := Some "sensor_failure";
     severity := Some severity; reason := Some reason;
     predicted_failure_km := Some predicted_km |}.

Section Detector.
Context {Llm Repo : Type}.

Definition log (lvl : log_level) (fmt : string) (a : list log_arg)
  : M (world Llm Repo) unit :=
  fun w =>
    (inr tt,
     World (w_log w ++ [LogRecord lvl fmt a])%list (w_calls w) (w_llm w)
           (w_repo w) (w_seed w) (w_now w)).

Definition logger_info := log INFO.
Definition logger_exception := log ERROR.

(** Step 1: normalise the payload into a dict; [None] stands for the
    early return of the [except] branch. *)
Definition normalise (payload : payload_arg)
  : M (world Llm Repo) (option (gmap string value)) :=
  match payload with
  | PDict d => ret (Some d)
  | PModel p =>
      let* _ := logger_info "Payload is NOT dict → converting via .dict()" [] in
      ret (Some (to_dict p))
  | PObject =>
      let* _ := logger_info "Payload is NOT dict → converting via .dict()" [] in
      let* _ := logger_exception "Payload conversion to dict FAILED." [] in
      ret None
  end.

(** Step 4: the rule set, first rule first. *)
Definition rule_set (r : readings) : M (world Llm Repo) AnomalyResult :=
  if coolant_rule r then ret (coolant_result r)
  else if charging_rule r then ret (charging_result r)
  else if high_vibration_rule r then ret (high_vibration_result r)
  else if mild_vibration_rule r then ret (mild_vibration_result r)
  else
    let* _ := logger_info "[ANOMALY DETECTOR] No rule triggered → no anomaly." [] in
    ret no_anomaly.

Definition detect (payload : payload_arg) : M (world Llm Repo) AnomalyResult :=
  let* d := normalise payload in
  match d with
  | None => ret no_anomaly
  | Some d =>
      let* _ := logger_info "=== [ANOMALY DETECTOR] Incoming telemetry payload ===" [] in
      let* _ := logger_info "PAYLOAD CONTENT: %s" [ADict d] in
      let* r := lift (extract_fields d) in
      rule_set r
  end.
End Detector.

(** ** services/crew_orchestrator.py: CrewOrchestrator *)

(** [_init_agents]: the five agents, instantiated once (they share the llm). *)
Definition data_agent : Agent :=
  {| role := "Data Monitoring Agent";
     goal := "Summarize the critical aspects of incoming telemetry and any detected anomaly "
             +:+ "for downstream agents.";
     backstory := "You are an expert in automotive telematics and CAN bus data. "
                  +:+ "You highlight only the most relevant parameters and risks." |}.

Definition diagnosis_agent : Agent :=
  {| role := "Diagnosis Agent";
     goal := "Explain the likely failure mode, impacted component, and recommended urgency "
             +:+ "for a preventive service visit.";
     backstory := "You are a senior automotive diagnostic specialist who understands "
                  +:+ "coolant systems, powertrain, and safety implications." |}.

Definition customer_agent : Agent :=
  {| role := "Customer Engagement Agent";
     goal := "Draft a clear, reassuring message to the vehicle owner explaining the issue "
             +:+ "and proposing a preventive check.";
     backstory := "You are a courteous service advisor at a premium car brand. "
                  +:+ "You avoid technical jargon and do not cause panic." |}.

Definition scheduling_agent : Agent :=
  {| role := "Scheduling Agent";
     goal := "Convert customer consent into a precise service booking instruction that "
             +:+ "can be passed to the dealer or CRM system.";
     backstory := "You are a meticulous booking coordinator familiar with workshop calendars "
                  +:+ "and peak load management." |}.

Definition insight_agent : Agent :=
  {| role := "OEM Insights Agent";
     goal := "Summarize the incident for OEM R&D, including defect hypothesis and potential "
             +:+ "impact on reliability and safety across the fleet.";
     backstory := "You are a quality & reliability engineer who feeds structured insights into "
                  +:+ "design improvement programs." |}.

Definition newline : string := String (ascii_of_nat 10) EmptyString.

(** The context dict built at the head of [run_pipeline]. *)
Definition build_context {RT : Runtime} (payload : TelemetryPayload) (anomaly : AnomalyResult)
  : gmap string field :=
  <["vin" := FStr (vin payload)]>
  (<["timestamp" := FStr (isoformat (timestamp payload))]>
  (<["coolant_temp_c" := FVal (VFloat (coolant_temp_c payload))]>
  (<["coolant_pressure_bar" := FVal (VFloat (coolant_pressure_bar payload))]>
  (<["engine_rpm" := FVal (VInt (engine_rpm payload))]>
  (<["vibration_level" := FVal (VFloat (vibration_level payload))]>
  (<["battery_voltage" := FVal (VFloat (battery_voltage payload))]>
  (<["odometer_km" := FVal (VFloat (odometer_km payload))]>
  (<["anomaly_reason" := opt_str (reason anomaly)]>
  (<["predicted_failure_km" := opt_float (predicted_failure_km anomaly)]>
  (<["component" := opt_str (component anomaly)]>
  (<["severity" := opt_str (severity anomaly)]> ∅))))))))))).

Definition _build_tasks {RT : Runtime} (context : gmap string field) : list Task :=
  let context_str := str_context context in
  let task1 :=
    {| description :=
         "You are given raw telemetry and an anomaly result. "
         +:+ "Using the following JSON context, summarize the key risk in 2–3 bullet points "
         +:+ "for technical stakeholders. Focus on the parameter deviations and why they matter."
         +:+ newline +:+ newline
         +:+ "Context: " +:+ context_str;
       agent := data_agent;
       expected_output :=
         "2–3 bullet points summarizing the anomaly and its technical implications." |} in
  let task2 :=
    {| description :=
         "Based on the same context, provide a diagnostic explanation:" +:+ newline
         +:+ "1) most probable failure mode," +:+ newline
         +:+ "2) specific component affected," +:+ newline
         +:+ "3) recommended urgency (low/medium/high/critical), and" +:+ newline
         +:+ "4) a one-line justification." +:+ newline +:+ newline
         +:+ "Context: " +:+ context_str;
       agent := diagnosis_agent;
       expected_output :=
         "A short paragraph followed by a bullet list with failure mode, component, "
         +:+ "urgency, and justification." |} in
  let task3 :=
    {| description :=
         "Draft a WhatsApp-style message to the vehicle owner explaining the situation "
         +:+ "in simple language and proposing a preventive service visit. "
         +:+ "Be calm, concise, and do not use technical jargon. "
         +:+ "Close with a question asking for a preferred day (e.g., 'Can I book you in on Tuesday?')."
         +:+ newline +:+ newline
         +:+ "Context: " +:+ context_str;
       agent := customer_agent;
       expected_output :=
         "A single message of 3–5 sentences that can be sent directly to the vehicle owner." |} in
  let task4 :=
    {| description :=
         "Convert the situation into a precise service booking instruction for the dealer system. "
         +:+ "Assume the customer has agreed to a visit within the next 3 days. "
         +:+ "Respond ONLY with valid JSON, no extra text, using the fields:" +:+ newline
         +:+ "  preferred_date (YYYY-MM-DD)," +:+ newline
         +:+ "  preferred_time_window (e.g., '10:00-12:00')," +:+ newline
         +:+ "  workshop_type (e.g., 'authorized_dealer')," +:+ newline
         +:+ "  notes (short text)." +:+ newline +:+ newline
         +:+ "Context: " +:+ context_str;
       agent := scheduling_agent;
       expected_output :=
         "Strictly valid JSON object with the keys: preferred_date, preferred_time_window, "
         +:+ "workshop_type, notes." |} in
  let task5 :=
    {| description :=
         "Write a concise technical summary for OEM R&D. Include:" +:+ newline
         +:+ "- VIN" +:+ newline
         +:+ "- component" +:+ newline
         +:+ "- severity" +:+ newline
         +:+ "- defect hypothesis" +:+ newline
         +:+ "- potential impact on safety and reliability across the fleet." +:+ newline
         +:+ "Limit to 4–6 bullet points." +:+ newline +:+ newline
         +:+ "Context: " +:+ context_str;
       agent := insight_agent;
       expected_output :=
         "4–6 bullet points that can be pasted into an OEM defect tracking system." |} in
  [task1; task2; task3; task4; task5].

(** [x or dflt] on the optional attributes of the anomaly. *)
Definition float_or (o : option Q) (dflt : Q) : Q :=
  match o with
  | Some q => if Qeq_bool q 0 then dflt else q
  | None => dflt
  end.

Definition str_or (o : option string) (dflt : string) : string :=
  match o with
  | Some s => if String.eqb s "" then dflt else s
  | None => dflt
  end.

(** [FaultRecord(...)]: the model validates [severity] against its literal
    type and raises otherwise. *)
Definition new_fault_record (id vin : string) (detected_at : Z) (predicted_failure_km : Q)
    (component severity : string) (raw_payload : gmap string field)
  : exn + Fault.FaultRecord :=
  if Fault.severity_literal severity
  then inr {| Fault.id := id; Fault.vin := vin; Fault.detected_at := detected_at;
              Fault.predicted_failure_km := predicted_failure_km;
              Fault.component := component; Fault.severity := severity;
              Fault.raw_payload := raw_payload |}
  else inl (ValidationError "severity: Input should be 'low', 'medium', 'high' or 'critical'").

(** The default [max_retry_limit] of a CrewAI [Agent]; [_init_agents]
    builds the five agents without setting it. *)
Definition max_retry_limit : nat := 2.

Section Orchestrator.
Context {Llm Repo : Type}.
Context {TG : TextGeneration Llm} {FR : FaultRepository Repo} {RT : Runtime}.

(** One attempt at a stage: the agent of the task calls the capability. *)
Definition call_llm (t : Task) (outputs : list string) : M (world Llm Repo) string :=
  fun w =>
    let (r, g) := execute_task (agent t) t outputs (w_llm w) in
    (r, World (w_log w) (w_calls w ++ [CallLlm (agent t) t]) g
              (w_repo w) (w_seed w) (w_now w)).

(** [await self.fault_repo.save_fault(fault)] *)
Definition call_save (f : Fault.FaultRecord) : M (world Llm Repo) unit :=
  fun w =>
    let (r, s) := save_fault f (w_repo w) in
    (r, World (w_log w) (w_calls w ++ [CallSave f]) (w_llm w)
              s (w_seed w) (w_now w)).

(** [generate_id()] *)
Definition fresh_id : M (world Llm Repo) string :=
  fun w =>
    (inr (generate_id (w_seed w)),
     World (w_log w) (w_calls w) (w_llm w) (w_repo w) (N.succ (w_seed w)) (w_now w)).

(** [datetime.utcnow()] *)
Definition utcnow : M (world Llm Repo) Z := fun w => (inr (w_now w), w).

(** [Agent.execute_task] of the CrewAI library: when the call of a stage
    raises, the agent counts the failure and executes the task again, until
    the count exceeds its [max_retry_limit]; the exception of the last
    attempt then propagates.  The count starts at zero on the agents of an
    orchestrator built for the request, as [get_orchestrator] builds it,
    and every agent has one task. *)
Fixpoint execute_with_retry (retries : nat) (t : Task) (outputs : list string)
  : M (world Llm Repo) string :=
  try_except (call_llm t outputs)
    (fun e =>
       match retries with
       | O => raise e
       | S n => execute_with_retry n t outputs
       end).

(** [Crew(..., process=Process.sequential).kickoff].  The loop belongs to
    the CrewAI library, not to the repository; it is modelled as the
    sequential process: the tasks run one after the other, in list order,
    each by its agent, and a stage that still raises after its retries
    leaves the loop: its exception propagates out of [kickoff]. *)
Fixpoint run_tasks (tasks : list Task) (outputs : list string)
  : M (world Llm Repo) (list string) :=
  match tasks with
  | [] => ret outputs
  | t :: rest =>
      let* out := execute_with_retry max_retry_limit t outputs in
      run_tasks rest (outputs ++ [out])
  end.

Definition kickoff (tasks : list Task) : M (world Llm Repo) (list string) :=
  run_tasks tasks [].

Definition run_pipeline (payload : TelemetryPayload) (anomaly : AnomalyResult)
  : M (world Llm Repo) pipeline_result :=
  let context := build_context payload anomaly in
  let* _ := logger_info "Running CrewAI pipeline for VIN=%s, component=%s, severity=%s"
              [AStr (vin payload); AOpt (component anomaly); AOpt (severity anomaly)] in
  let tasks := _build_tasks context in
  let* crew_result :=
    try_except (kickoff tasks)
      (fun exc =>
         let* _ := logger_exception "CrewAI pipeline failed: %s" [AExn exc] in
         raise exc) in
  let* id := fresh_id in
  let* now := utcnow in
  let* fault :=
    lift (new_fault_record id (vin payload) now
            (float_or (predicted_failure_km anomaly) 200.0)
            (str_or (component anomaly) "unknown")
            (str_or (severity anomaly) "medium")
            context) in
  let* _ :=
    try_except (call_save fault)
      (fun exc => logger_exception "Failed to persist fault record: %s" [AExn exc]) in
  ret {| context := context;
         crew_output := crew_output_str crew_result;
         fault_id := Fault.id fault |}.

(** ** main.py: ingest_telemetry *)

Definition ingest_telemetry (payload : TelemetryPayload) : M (world Llm Repo) Response.t :=
  let* _ := logger_info "Received telemetry for VIN=%s" [AStr (vin payload)] in
  let* anomaly := detect (PModel payload) in
  if negb (is_anomaly anomaly) then
    ret {| Response.status := "ok"; Response.anomaly := false;
           Response.message := Some "No anomaly detected.";
           Response.fault_id := None; Response.summary := None;
           Response.crew_output := None |}
  else
    let* result :=
      try_except (run_pipeline payload anomaly)
        (fun e =>
           let* _ := logger_exception "Failed to run orchestrator: %s" [AExn e] in
           raise (HTTPException 500 "Internal processing error; please try again later.")) in
    ret {| Response.status := "anomaly_detected"; Response.anomaly := true;
           Response.message := None;
           Response.fault_id := Some (fault_id result);
           Response.summary := Some (context result);
           Response.crew_output := Some (crew_output result) |}.

(** The stages as seen by the capability alone when every call answers:
    the outputs of [tasks] run in order from the provider state [g], one
    call each, or the first exception. *)
Fixpoint stages (tasks : list Task) (outputs : list string) (g : Llm)
  : (exn + list string) * Llm :=
  match tasks with
  | [] => (inr outputs, g)
  | t :: rest =>
      match execute_task (agent t) t outputs g with
      | (inr out, g') => stages rest (outputs ++ [out]) g'
      | (inl e, g') => (inl e, g')
      end
  end.
End Orchestrator.

(** The world after further log records were written. *)
Definition add_log {Llm Repo} (w : world Llm Repo) (l : list log_record) : world Llm Repo :=
  World (w_log w ++ l)%list (w_calls w) (w_llm w) (w_repo w) (w_seed w) (w_now w).

(** The call a stage makes. *)
Definition llm_call (t : Task) : call := CallLlm (agent t) t.

(** The world after the calls [cs] were made and left the provider in [g]. *)
Definition after_calls {Llm Repo} (w : world Llm Repo) (cs : list call) (g : Llm)
  : world Llm Repo :=
  World (w_log w) (w_calls w ++ cs)%list g (w_repo w) (w_seed w) (w_now w).

Definition returned {A} (r : exn + A) : bool :=
  match r with inr _ => true | inl _ => false end.

Section CrewStages.
Context {Llm : Type} {TG : TextGeneration Llm}.

(** One stage as the capability sees it, retries included: the result, the
    provider state left behind and the number of calls made. *)
Fixpoint attempts (retries : nat) (t : Task) (outputs : list string) (g : Llm)
  : (exn + string) * Llm * nat :=
  match execute_task (agent t) t outputs g with
  | (inr out, g') => (inr out, g', 1%nat)
  | (inl e, g') =>
      match retries with
      | O => (inl e, g', 1%nat)
      | S n => let '(r, g'', k) := attempts n t outputs g' in (r, g'', S k)
      end
  end.

(** The stages of [kickoff] as the capability sees them: the outputs of
    [tasks], or the exception of the first stage that fails through all its
    attempts, with the provider state and the calls made. *)
Fixpoint crew_stages (tasks : list Task) (outputs : list string) (g : Llm)
  : (exn + list string) * Llm * list call :=
  match tasks with
  | [] => (inr outputs, g, [])
  | t :: rest =>
      match attempts max_retry_limit t outputs g with
      | (inr out, g', k) =>
          let '(r, g'', cs) := crew_stages rest (outputs ++ [out]) g' in
          (r, g'', (replicate k (llm_call t) ++ cs)%list)
      | (inl e, g', k) => (inl e, g', replicate k (llm_call t))
      end
  end.
End CrewStages.

(** A value that [float] converts. *)
Definition float_convertible (v : value) : bool :=
  match v with
  | VInt z => (Z.abs z <? float_int_bound)%Z
  | _ => true
  end.

(** The keys whose entries [detect] hands to [float]. *)
Definition float_keys : list string :=
  ["coolant_temp_c"; "coolant_pressure_bar"; "battery_voltage";
   "vibration_level"; "odometer_km"].

(** The arguments of [detect] on which no conversion overflows. *)
Definition payload_convertible (payload : payload_arg) : bool :=
  match payload with
  | PDict d => forallb (fun k => float_convertible (dict_get d k)) float_keys
  | PModel _ | PObject => true
  end.

(** ** The rule set as the specification words it *)

(** The rules in their fixed order: condition and classification. *)
Definition rules : list ((readings -> bool) * (readings -> AnomalyResult)) :=
  [ (coolant_rule, coolant_result);
    (charging_rule, charging_result);
    (high_vibration_rule, high_vibration_result);
    (mild_vibration_rule, mild_vibration_result) ].

(** The classification of the earliest rule whose condition holds. *)
Definition first_match (r : readings) : AnomalyResult :=
  match find (fun rule => fst rule r) rules with
  | Some rule => snd rule r
  | None => no_anomaly
  end.

(** The increment of the predicted distance, by severity. *)
Definition severity_increment (sev : string) : Q :=
  if String.eqb sev "critical" then 200
  else if String.eqb sev "high" then 1000
  else if String.eqb sev "medium" then 5000
  else if String.eqb sev "low" then 15000
  else 8000.

(** ** config.py: Settings *)

Record Settings : Type := {
  app_name : string;
  environment : string;
  llm_provider : string;
  llm_model : string;
  openai_api_key : option string;
  groq_api_key : option string;
  anthropic_api_key : option string;
  sqlite_url : string;
  use_firebase : bool
}.

(** The defaults of the class, when neither the environment nor [.env]
    sets a field. *)
Definition default_settings : Settings :=
  {| app_name := "AutoSentinels Backend"; environment := "local";
     llm_provider := "anthropic"; llm_model := "claude-3-5-sonnet-latest";
     openai_api_key := None; groq_api_key := None; anthropic_api_key := None;
     sqlite_url := "sqlite+aiosqlite:///./autosentinels.db";
     use_firebase := false |}.

(** [str.lower] on the ASCII letters.  The strings are byte strings: a
    character outside ASCII is left as it is, and no lowered string that
    contains one equals a name it is compared with below. *)
Definition lower_ascii (a : ascii) : ascii :=
  let n := nat_of_ascii a in
  if ((65 <=? n) && (n <=? 90))%nat then ascii_of_nat (n + 32) else a.

Fixpoint lower (s : string) : string :=
  match s with
  | EmptyString => EmptyString
  | String a rest => String (lower_ascii a) (lower rest)
  end.

(** ** services/crew_orchestrator.py: _build_llm *)

Inductive client_class : Type := ChatAnthropic | LLM.

(** The client object that [_build_llm] constructs, by its arguments. *)
Module Client.
Record t : Type := {
  cls : client_class;
  provider : option string;
  model : string;
  anthropic_api_key : option string;
  temperature : Q;
  max_tokens : Z
}.
End Client.

Definition RuntimeError (msg : string) : exn := Exception msg.

(** [not key] for an optional string: [None] or empty. *)
Definition key_missing (k : option string) : bool :=
  match k with
  | Some s => String.eqb s ""
  | None => true
  end.

Section BuildLlm.
Context {Llm Repo : Type}.

(** The process state of the API layer: the world and [os.environ]. *)
Definition process : Type := world Llm Repo * gmap string string.

(** Run a computation of the world in the process. *)
Definition in_world {A} (m : M (world Llm Repo) A) : M process A :=
  fun s => let (r, w) := m (fst s) in (r, (w, snd s)).

(** [os.environ[name] = v] *)
Definition setenv (name v : string) : M process unit :=
  fun s => (inr tt, (fst s, <[name := v]> (snd s))).

Definition _build_llm (settings : Settings) : M process Client.t :=
  let provider := lower (str_or (Some (llm_provider settings)) "anthropic") in
  if String.eqb provider "anthropic" then
    if key_missing (anthropic_api_key settings) then
      raise (RuntimeError "ANTHROPIC_API_KEY is not set")
    else
      ret {| Client.cls := ChatAnthropic; Client.provider := None;
             Client.model := str_or (Some (llm_model settings)) "claude-3-haiku-20240307";
             Client.anthropic_api_key := anthropic_api_key settings;
             Client.temperature := 0.2; Client.max_tokens := 512 |}
  else if String.eqb provider "openai" then
    if key_missing (openai_api_key settings) then
      raise (RuntimeError "OPENAI_API_KEY is not set in environment or .env")
    else
      let* _ := setenv "OPENAI_API_KEY" (default "" (openai_api_key settings)) in
      let* _ := in_world (logger_info "Using OpenAI provider with model=%s"
                            [AStr (llm_model settings)]) in
      ret {| Client.cls := LLM; Client.provider := Some "openai";
             Client.model := str_or (Some (llm_model settings)) "gpt-4o";
             Client.anthropic_api_key := None;
             Client.temperature := 0.2; Client.max_tokens := 2048 |}
  else if String.eqb provider "groq" then
    if key_missing (groq_api_key settings) then
      raise (RuntimeError "GROQ_API_KEY is not set in environment or .env")
    else
      let* _ := setenv "GROQ_API_KEY" (default "" (groq_api_key settings)) in
      let* _ := in_world (logger_info "Using Groq provider with model=%s"
                            [AStr (llm_model settings)]) in
      ret {| Client.cls := LLM; Client.provider := Some "groq";
             Client.model := str_or (Some (llm_model settings)) "llama3-70b-8192";
             Client.anthropic_api_key := None;
             Client.temperature := 0.2; Client.max_tokens := 2048 |}
  else
    raise (RuntimeError ("Unsupported llm_provider: " +:+ llm_provider settings)).
End BuildLlm.

(** ** main.py: the fault list and the OEM chat *)

(** langchain messages *)
Inductive message : Type :=
| SystemMessage (content : string)
| HumanMessage (content : string).

(** The chat model behind a client: [llm.invoke(messages)] answers with the
    content of a response, or raises. *)
Class ChatModel (Llm : Type) : Type := {
  invoke : Client.t -> list message -> Llm -> (exn + string) * Llm;
  str_client : Client.t -> string;
  str_response : string -> string
}.

(** What Python and pydantic supply for strings and floats: [str.strip],
    [str] of a float, of an exception and of a list of records, [float] of
    a string ([None] when it raises), and the number pydantic reads from a
    string for a float field ([None] when it rejects it). *)
Class PyText : Type := {
  strip : string -> string;
  str_float : Q -> string;
  str_exn : exn -> string;
  str_records : list Fault.FaultRecord -> string;
  parse_float : string -> option Q;
  float_of_str_lax : string -> option Q
}.

Module Oem.
Record OemChatRow : Type := {
  vin : string;
  component : option string;
  severity : option string;
  remaining_km : option Q
}.

Record OemChatRequest : Type := { query : string }.

Record OemChatResponse : Type := {
  answer : string;
  table : option (list OemChatRow)
}.
End Oem.

(** [x is None] *)
Definition is_none (v : field) : bool :=
  match v with FVal VNone => true | _ => false end.

(** [float(x)] on an entry of a payload. *)
Definition field_float {PT : PyText} (v : field) : exn + Q :=
  match v with
  | FStr s =>
      match parse_float s with
      | Some q => inr q
      | None => inl (Exception ("could not convert string to float: " +:+ s))
      end
  | FVal x => py_float x
  end.

(** Validation of an [Optional[str]] field: a string or [None]; otherwise
    the error of the field. *)
Definition optional_str (name : string) (v : field) : string + option string :=
  match v with
  | FStr s => inr (Some s)
  | FVal VNone => inr None
  | FVal _ => inl (name +:+ ": Input should be a valid string")
  end.

(** The errors of the fields of a model, gathered in one exception. *)
Definition field_error {A} (r : string + A) : list string :=
  match r with inl text => [text] | inr _ => [] end.

Definition validation_error (errors : list string) : exn :=
  ValidationError (String.concat newline errors).

(** [str(x)] of an entry that passed as [Optional[str]]. *)
Definition str_opt (o : option string) : string :=
  match o with Some s => s | None => "None" end.

Section OemChat.
Context {Llm Repo : Type}.
Context {CM : ChatModel Llm} {FR : FaultRepository Repo} {PT : PyText}.

(** [remaining_km] of the loop body; the difference is the code's
    [float(predicted_km) - float(odometer)], here without the rounding of
    the float subtraction. *)
Definition remaining_of (odometer predicted_km : field) : option Q :=
  if negb (is_none odometer) && negb (is_none predicted_km) then
    match field_float predicted_km with
    | inr pk =>
        match field_float odometer with
        | inr od => Some (pk - od)%Q
        | inl _ => None
        end
    | inl _ => None
    end
  else None.

(** One turn of the loop over the faults: the row and its line of the
    snapshot.  ([raw_payload] is a dict by the type of the record, so the
    branch that decodes a string is never entered.) *)
Definition fault_row (f : Fault.FaultRecord) : exn + (Oem.OemChatRow * string) :=
  let raw := Fault.raw_payload f in
  let component := default (FStr (Fault.component f)) (raw !! "component") in
  let severity := default (FStr (Fault.severity f)) (raw !! "severity") in
  let odometer := default (FVal VNone) (raw !! "odometer_km") in
  let predicted_km :=
    default (FVal (VFloat (Fault.predicted_failure_km f))) (raw !! "predicted_failure_km") in
  let remaining_km := remaining_of odometer predicted_km in
  match optional_str "component" component, optional_str "severity" severity with
  | inr c, inr s =>
      inr ({| Oem.vin := Fault.vin f; Oem.component := c; Oem.severity := s;
              Oem.remaining_km := remaining_km |},
           "VIN=" +:+ Fault.vin f +:+ " | component=" +:+ str_opt c
           +:+ " | severity=" +:+ str_opt s +:+ " | "
           +:+ "remaining_km=" +:+ from_option str_float "None" remaining_km)
  | c, s => inl (validation_error (field_error c ++ field_error s))
  end.

(** The loop: rows and lines in the order of the faults; the first row
    that does not validate raises. *)
Fixpoint fault_rows (faults : list Fault.FaultRecord)
  : exn + (list Oem.OemChatRow * list string) :=
  match faults with
  | [] => inr ([], [])
  | f :: rest =>
      and_then (fault_row f) (fun rl =>
      and_then (fault_rows rest) (fun rls =>
      inr (fst rl :: fst rls, snd rl :: snd rls)))
  end.

(** The two messages of the prompt. *)
Definition oem_messages (fleet_lines : list string) (user_query : string) : list message :=
  let snapshot_text := String.concat newline (take 80 fleet_lines) in
  [ SystemMessage
      ("You are the AutoSentinels OEM Agent Brain. "
       +:+ "You answer questions for OEM reliability / quality teams using "
       +:+ "ONLY the fleet snapshot provided. "
       +:+ "Be specific about which VINs/components are at risk, "
       +:+ "timeframes (in km / weeks) and recommended actions.");
    HumanMessage
      (newline +:+ "Fleet snapshot (recent faults, one per line):" +:+ newline
       +:+ snapshot_text +:+ newline +:+ newline
       +:+ "OEM question:" +:+ newline
       +:+ user_query +:+ newline +:+ newline
       +:+ "Respond in 2–4 short paragraphs, then optionally a bullet list of key actions."
       +:+ newline) ].

(** [await repo.list_recent_faults(limit=...)] *)
Definition call_list_recent (limit : Z) : M (world Llm Repo) (list Fault.FaultRecord) :=
  fun w =>
    let (r, s) := list_recent_faults limit (w_repo w) in
    (r, World (w_log w) (w_calls w) (w_llm w) s (w_seed w) (w_now w)).

(** [llm.invoke(messages)] *)
Definition call_invoke (llm : Client.t) (messages : list message)
  : M (world Llm Repo) string :=
  fun w =>
    let (r, g) := invoke llm messages (w_llm w) in
    (r, World (w_log w) (w_calls w) g (w_repo w) (w_seed w) (w_now w)).

(** GET /faults *)
Definition list_recent_faults_endpoint (limit : Z)
  : M (world Llm Repo) (list Fault.FaultRecord) :=
  try_except (call_list_recent limit)
    (fun e =>
       let* _ := logger_exception "Error fetching recent faults: %s" [AExn e] in
       raise (HTTPException 500 "Failed to fetch faults.")).

(** POST /oem_chat *)
Definition oem_chat_endpoint (settings : Settings) (payload : Oem.OemChatRequest)
  : M (@process Llm Repo) Oem.OemChatResponse :=
  let user_query := strip (str_or (Some (Oem.query payload)) "") in
  let* _ := in_world (logger_info "OEM_CHAT_DEBUG: Received /oem_chat query=%s"
                        [AStr user_query]) in
  let* faults :=
    in_world
      (try_except
         (let* faults := call_list_recent 300 in
          let* _ := logger_info "OEM_CHAT_DEBUG: Retrieved %d recent faults"
                      [AStr (pretty (length faults))] in
          ret faults)
         (fun e =>
            let* _ := logger_exception "OEM_CHAT_DEBUG: Error fetching faults: %s"
                        [AExn e] in
            raise (HTTPException 500 "Failed to fetch fleet faults for OEM chat."))) in
  let* rows_lines := lift (fault_rows faults) in
  let table_rows := fst rows_lines in
  let fleet_lines := snd rows_lines in
  let messages := oem_messages fleet_lines user_query in
  let* _ := in_world (logger_info "OEM_CHAT_DEBUG: Messages for LLM constructed." []) in
  let* answer_text :=
    try_except
      (let* llm := _build_llm settings in
       let* _ := in_world (logger_info "OEM_CHAT_DEBUG: LLM built successfully: %s"
                             [AStr (str_client llm)]) in
       let* content := in_world (call_invoke llm messages) in
       let* _ := in_world (logger_info "OEM_CHAT_DEBUG: LLM raw response: %s"
                             [AStr (str_response content)]) in
       ret (strip content))
      (fun e =>
         let* _ := in_world (logger_exception "OEM_CHAT_DEBUG: LLM error: %s" [AExn e]) in
         raise (HTTPException 500 ("LLM error: " +:+ str_exn e))) in
  ret {| Oem.answer := answer_text;
         Oem.table := match table_rows with [] => None | _ => Some table_rows end |}.
End OemChat.

(** ** frontend_oem_streamlit/api_client.py: data transformers *)

Definition severity_order : gmap string Z :=
  <["low" := 0%Z]> (<["medium" := 1%Z]> (<["high" := 2%Z]> (<["critical" := 3%Z]> ∅))).

Definition _severity_rank (sev : option string) : Z :=
  default (-1)%Z (severity_order !! lower (str_or sev "")).

Definition status_from_severity (sev : option string) : string :=
  let sev_l := lower (str_or sev "") in
  if String.eqb sev_l "critical" then "Critical"
  else if String.eqb sev_l "high" then "Warning"
  else if bool_decide (sev_l ∈ ["medium"; "low"]) then "Warning"
  else "Healthy".

(** [df["severity"].str.lower() == name], entry by entry: an entry that is
    not a string compares unequal. *)
Definition lowered_is (name : string) (sev : option string) : bool :=
  match sev with
  | Some s => String.eqb (lower s) name
  | None => false
  end.

(** [compute_fleet_risk_score], on the severity column of the frame. *)
Definition compute_fleet_risk_score (severity_column : list (option string)) : Z :=
  match severity_column with
  | [] => 100
  | _ =>
      let high := Z.of_nat (length (filter (fun s => lowered_is "high" s = true)
                                      severity_column)) in
      let crit := Z.of_nat (length (filter (fun s => lowered_is "critical" s = true)
                                      severity_column)) in
      let score := (100 - (2 * high + 5 * crit))%Z in
      Z.max 0 score
  end.

(** ** main.py: the driver chat *)

Module ChatRequest.
Record t : Type := {
  vin : string;
  message : string
}.
End ChatRequest.

Module ChatResponse.
Record t : Type := {
  vin : string;
  user_message : string;
  bot_message : string;
  severity : option string;
  component : option string;
  predicted_failure_km : option Q;
  anomaly_reason : option string
}.
End ChatResponse.

(** [str] of a response object, for the log. *)
Class ChatRepr : Type := { str_chat_response : ChatResponse.t -> string }.

Definition dquote : string := String (ascii_of_nat 34) EmptyString.

(** [s.replace("\n", " | ")] *)
Fixpoint replace_newlines (s : string) : string :=
  match s with
  | EmptyString => EmptyString
  | String a rest =>
      if Ascii.eqb a (ascii_of_nat 10) then " | " +:+ replace_newlines rest
      else String a (replace_newlines rest)
  end.

(** [str(x)] of an entry of a payload, as an f-string renders it. *)
Definition str_field {PT : PyText} (v : field) : string :=
  match v with
  | FStr s => s
  | FVal VNone => "None"
  | FVal (VInt z) => pretty z
  | FVal (VFloat q) => str_float q
  end.

(** Validation of an [Optional[float]] field. *)
Definition optional_float {PT : PyText} (name : string) (v : field) : string + option Q :=
  match v with
  | FVal VNone => inr None
  | FVal (VInt z) => inr (Some (inject_Z z))
  | FVal (VFloat q) => inr (Some q)
  | FStr s =>
      match float_of_str_lax s with
      | Some q => inr (Some q)
      | None => inl (name +:+ ": Input should be a valid number, "
                     +:+ "unable to parse string as a number")
      end
  end.

Section DriverChatResponse.
Context {Llm Repo : Type}.
Context {CM : ChatModel Llm} {FR : FaultRepository Repo} {RT : Runtime} {PT : PyText}
        {CR : ChatRepr}.

Definition logger_error := @log Llm Repo ERROR.

(** [await repo.list_faults_for_vin(vin)] *)
Definition call_list_for_vin (v : string) : M (world Llm Repo) (list Fault.FaultRecord) :=
  fun w =>
    let (r, s) := list_faults_for_vin v (w_repo w) in
    (r, World (w_log w) (w_calls w) (w_llm w) s (w_seed w) (w_now w)).

(** What the chat reads from the newest fault: component, severity, reason
    and predicted distance, each from the stored payload when it has the
    key. *)
Definition fault_view (f : Fault.FaultRecord) : field * field * field * field :=
  let raw := Fault.raw_payload f in
  (default (FStr (Fault.component f)) (raw !! "component"),
   default (FStr (Fault.severity f)) (raw !! "severity"),
   default (FStr "An anomaly was detected.") (raw !! "anomaly_reason"),
   default (FVal (VFloat (Fault.predicted_failure_km f))) (raw !! "predicted_failure_km")).

Definition fault_context_of (view : field * field * field * field) : string :=
  let '(component, severity, reason, predicted_km) := view in
  newline +:+ "Detected Fault:" +:+ newline
  +:+ "- Component: " +:+ str_field component +:+ newline
  +:+ "- Severity: " +:+ str_field severity +:+ newline
  +:+ "- Reason: " +:+ str_field reason +:+ newline
  +:+ "- Predicted failure distance: approx. " +:+ str_field predicted_km +:+ " km"
  +:+ newline.

Definition chat_messages (v fault_context user_msg : string) : list message :=
  [ SystemMessage "You are AutoSentinels. Only answer using the provided fault context.";
    HumanMessage
      (newline +:+ "Vehicle VIN: " +:+ v +:+ newline +:+ newline
       +:+ fault_context +:+ newline +:+ newline
       +:+ "Driver Question: " +:+ dquote +:+ user_msg +:+ dquote +:+ newline) ].

(** [ChatResponse(...)]: the optional fields are validated together. *)
Definition new_chat_response (v user_msg reply_text : string)
    (view : option (field * field * field * field)) : exn + ChatResponse.t :=
  match view with
  | None =>
      inr {| ChatResponse.vin := v; ChatResponse.user_message := user_msg; ChatResponse.bot_message := reply_text;
             ChatResponse.severity := None; ChatResponse.component := None;
             ChatResponse.predicted_failure_km := None; ChatResponse.anomaly_reason := None |}
  | Some (component, severity, reason, predicted_km) =>
      match optional_str "severity" severity, optional_str "component" component,
            optional_float "predicted_failure_km" predicted_km,
            optional_str "anomaly_reason" reason with
      | inr s, inr c, inr km, inr r =>
          inr {| ChatResponse.vin := v; ChatResponse.user_message := user_msg;
                 ChatResponse.bot_message := reply_text;
                 ChatResponse.severity := s; ChatResponse.component := c;
                 ChatResponse.predicted_failure_km := km; ChatResponse.anomaly_reason := r |}
      | s, c, km, r =>
          inl (validation_error
                 (field_error s ++ field_error c ++ field_error km ++ field_error r))
      end
  end.

(** POST /chat *)
Definition chat_endpoint (settings : Settings) (payload : ChatRequest.t)
  : M (@process Llm Repo) ChatResponse.t :=
  let v := strip (ChatRequest.vin payload) in
  let user_msg := strip (ChatRequest.message payload) in
  let* _ := in_world (logger_info "CHAT_DEBUG: Received /chat request | vin=%s | message=%s"
                        [AStr v; AStr user_msg]) in
  let* faults :=
    in_world
      (try_except
         (let* faults := call_list_for_vin v in
          let* _ := logger_info "CHAT_DEBUG: Retrieved faults: %s"
                      [AStr (str_records faults)] in
          ret faults)
         (fun e =>
            let* _ := logger_error "CHAT_DEBUG: Error retrieving faults: %s" [AExn e] in
            raise e)) in
  let* view :=
    in_world
      match faults with
      | f :: _ =>
          let* _ := logger_info "CHAT_DEBUG: Raw payload before normalization: %s"
                      [AStr (str_context (Fault.raw_payload f))] in
          ret (Some (fault_view f))
      | [] => ret None
      end in
  let fault_context :=
    match view with
    | Some fv => fault_context_of fv
    | None => "No active faults detected."
    end in
  let* _ := in_world (logger_info "CHAT_DEBUG: Fault context built: %s"
                        [AStr (replace_newlines fault_context)]) in
  let messages := chat_messages v fault_context user_msg in
  let* _ := in_world (logger_info "CHAT_DEBUG: Messages constructed successfully." []) in
  let* reply_text :=
    try_except
      (let* llm := _build_llm settings in
       let* _ := in_world (logger_info "CHAT_DEBUG: LLM built successfully: %s"
                             [AStr (str_client llm)]) in
       let* content := in_world (call_invoke llm messages) in
       let* _ := in_world (logger_info "CHAT_DEBUG: LLM raw response: %s"
                             [AStr (str_response content)]) in
       let reply_text := strip content in
       let* _ := in_world (logger_info "CHAT_DEBUG: LLM reply_text extracted: %s"
                             [AStr reply_text]) in
       ret reply_text)
      (fun e =>
         let* _ := in_world (logger_error "CHAT_DEBUG: LLM error: %s" [AExn e]) in
         raise (HTTPException 500 ("LLM error: " +:+ str_exn e))) in
  try_except
    (let* resp := lift (new_chat_response v user_msg reply_text view) in
     let* _ := in_world (logger_info "CHAT_DEBUG: ChatResponse constructed successfully: %s"
                           [AStr (str_chat_response resp)]) in
     ret resp)
    (fun e =>
       let* _ := in_world (logger_error "CHAT_DEBUG: Error constructing ChatResponse: %s"
                             [AExn e]) in
       raise e).
End DriverChatResponse.

(** ** The orchestrator as a dependency of the ingest route *)

(** The object [CrewOrchestrator.__init__] builds: the client and the five
    agents of [_init_agents]. *)
Record CrewOrchestrator : Type := {
  llm : Client.t;
  agents : list Agent
}.

Section IngestRoute.
Context {Llm Repo : Type}.
Context {TG : TextGeneration Llm} {FR : FaultRepository Repo} {RT : Runtime}.

(** [CrewOrchestrator(fault_repo=repo)]: [__init__] builds the client, then
    the agents. *)
Definition new_orchestrator (settings : Settings) : M (@process Llm Repo) CrewOrchestrator :=
  let* client := _build_llm settings in
  ret {| llm := client;
         agents := [data_agent; diagnosis_agent; customer_agent; scheduling_agent;
                    insight_agent] |}.

(** [get_orchestrator] *)
Definition get_orchestrator (settings : Settings) : M (@process Llm Repo) CrewOrchestrator :=
  new_orchestrator settings.

(** POST /telematics/ingest as served: the framework resolves
    [Depends(get_orchestrator)], then calls the endpoint. *)
Definition ingest_route (settings : Settings) (payload : TelemetryPayload)
  : M (@process Llm Repo) Response.t :=
  let* orchestrator := get_orchestrator settings in
  in_world (ingest_telemetry payload).
End IngestRoute.

(** ** Concrete collaborators and samples *)

(** A provider that answers the [n]-th call with a canned text, and raises
    on the call numbered [fail_at] (counting from 0), if any. *)
Definition scripted_llm (fail_at : option nat) : TextGeneration nat :=
  {| execute_task := fun a t outs n =>
       if bool_decide (fail_at = Some n)
       then (inl (Exception "provider error"), S n)
       else (inr ("output of " +:+ role a), S n);
     crew_output_str := String.concat newline |}.

(** A provider that answers the calls numbered below [k] and raises on
    every call from [k] on. *)
Definition failing_from (k : nat) : TextGeneration nat :=
  {| execute_task := fun a t outs n =>
       if (k <=? n)%nat
       then (inl (Exception "provider error"), S n)
       else (inr ("output of " +:+ role a), S n);
     crew_output_str := String.concat newline |}.

(** An in-memory repository, and one whose [save_fault] always raises. *)
Definition memory_repo : FaultRepository (list Fault.FaultRecord) :=
  {| save_fault := fun f s => (inr tt, (s ++ [f])%list);
     list_faults_for_vin := fun v s =>
       (inr (filter (fun f => Fault.vin f = v) (rev s)), s);
     list_recent_faults := fun limit s => (inr (take (Z.to_nat limit) (rev s)), s) |}.


Definition demo_runtime : Runtime :=
  {| generate_id := fun n => "fault-" +:+ pretty n;
     isoformat := fun t => pretty t;
     str_context := fun _ => "{...}" |}.

Definition demo_world : world nat (list Fault.FaultRecord) :=
  World [] [] 0%nat [] 0%N 1700000000%Z.

Definition sample (temp pressure : Q) (revs : Z) (vib volts odo : Q) : TelemetryPayload :=
  {| vin := "WDB1234567F000001"; timestamp := 1700000000;
     coolant_temp_c := temp; coolant_pressure_bar := pressure;
     engine_rpm := revs; vibration_level := vib;
     battery_voltage := volts; odometer_km := odo;
     ambient_temp_c := None |}.

(** The sample of the precedence example, its readings, and the record the
    pipeline builds for it from the first id of [demo_runtime]. *)
Definition hot_sample : TelemetryPayload := sample 140 1.0 3000 90 10.0 10000.

Definition hot_readings : readings :=
  {| coolant_temp := 140; coolant_pressure := 1.0; battery := 10.0;
     rpm := 3000; vibration := 90; odometer := 10000 |}.

Definition hot_fault : Fault.FaultRecord :=
  {| Fault.id := "fault-0"; Fault.vin := "WDB1234567F000001";
     Fault.detected_at := 1700000000; Fault.predicted_failure_km := 10200;
     Fault.component := "coolant_pump"; Fault.severity := "critical";
     Fault.raw_payload :=
       build_context (RT:=demo_runtime) hot_sample (coolant_result hot_readings) |}.

(** The nominal sample, and the record built when the pipeline is run on it
    with the classification [no_anomaly]. *)
Definition quiet_sample : TelemetryPayload := sample 90 1.0 1500 10 13.0 10000.

Definition quiet_fault : Fault.FaultRecord :=
  {| Fault.id := "fault-0"; Fault.vin := "WDB1234567F000001";
     Fault.detected_at := 1700000000; Fault.predicted_failure_km := 200.0;
     Fault.component := "unknown"; Fault.severity := "medium";
     Fault.raw_payload := build_context (RT:=demo_runtime) quiet_sample no_anomaly |}.

(** What the five stages of [scripted_llm None] answer. *)
Definition canned_outputs : list string :=
  [ "output of Data Monitoring Agent"; "output of Diagnosis Agent";
    "output of Customer Engagement Agent"; "output of Scheduling Agent";
    "output of OEM Insights Agent" ].

(** The task of stage [k], counting from 0. *)
Definition stage (k : nat) (tasks : list Task) : Task :=
  nth k tasks {| description := ""; agent := data_agent; expected_output := "" |}.

(** ** Concrete chat collaborators *)

(** A chat model that always answers the same text, and one that raises. *)
Definition canned_chat : ChatModel nat :=
  {| invoke := fun c msgs n => (inr "  Two vehicles need attention.  ", S n);
     str_client := Client.model;
     str_response := fun content => content |}.

Definition failing_chat : ChatModel nat :=
  {| invoke := fun c msgs n => (inl (Exception "rate limited"), S n);
     str_client := Client.model;
     str_response := fun content => content |}.

Fixpoint lstrip (s : string) : string :=
  match s with
  | String a rest => if is_space a then lstrip rest else s
  | EmptyString => EmptyString
  end.

Definition demo_text : PyText :=
  {| strip := fun s => String.rev (lstrip (String.rev (lstrip s)));
     str_float := format_1f;
     str_exn := fun e =>
       match e with
       | TypeError text | ValidationError text | Exception text => text
       | HTTPException code detail => pretty code +:+ ": " +:+ detail
       end;
     str_records := fun l => pretty (length l) +:+ " records";
     parse_float := fun _ => None;
     float_of_str_lax := fun _ => None |}.

(** A repository that is down altogether. *)
Definition down_repo : FaultRepository (list Fault.FaultRecord) :=
  {| save_fault := fun f s => (inl (Exception "database is locked"), s);
     list_faults_for_vin := fun v s => (inl (Exception "database is locked"), s);
     list_recent_faults := fun limit s => (inl (Exception "database is locked"), s) |}.

Definition openai_settings : Settings :=
  {| app_name := "AutoSentinels Backend"; environment := "local";
     llm_provider := "OpenAI"; llm_model := "";
     openai_api_key := Some "sk-test"; groq_api_key := None; anthropic_api_key := None;
     sqlite_url := "sqlite+aiosqlite:///./autosentinels.db";
     use_firebase := false |}.

(** The client [_build_llm] makes of [openai_settings]. *)
Definition openai_client : Client.t :=
  {| Client.cls := LLM; Client.provider := Some "openai"; Client.model := "gpt-4o";
     Client.anthropic_api_key := None; Client.temperature := 0.2;
     Client.max_tokens := 2048 |}.

(** A world whose repository holds the record of the hot sample. *)
Definition fleet_world : world nat (list Fault.FaultRecord) :=
  World [] [] 0%nat [hot_fault] 1%N 1700000100%Z.

(** The row of [hot_fault] in the OEM table. *)
Definition hot_row : Oem.OemChatRow :=
  {| Oem.vin := "WDB1234567F000001"; Oem.component := Some "coolant_pump";
     Oem.severity := Some "critical"; Oem.remaining_km := Some 200%Q |}.


Definition demo_repr : ChatRepr := {| str_chat_response := ChatResponse.bot_message |}.

(** * Properties *)

Create HintDb monad_ops.
#[global] Hint Unfold bind ret raise lift try_except logger_info logger_exception
  log add_log : monad_ops.

Ltac run_monad := autounfold with monad_ops; cbn [fst snd].

(** ** Comparisons *)

Lemma Qleb_le x y : Qleb x y = true <-> (x <= y)%Q.
Proof. apply Qle_bool_iff. Qed.

Lemma Qgeb_le x y : Qgeb x y = true <-> (y <= x)%Q.
Proof. apply Qle_bool_iff. Qed.

Lemma Qleb_gt x y : Qleb x y = false <-> (y < x)%Q.
Proof.
  unfold Qleb. rewrite <- not_true_iff_false, Qle_bool_iff. split; intros; lra.
Qed.

Lemma Qgeb_lt x y : Qgeb x y = false <-> (x < y)%Q.
Proof. apply Qleb_gt. Qed.

Lemma Qltb_lt x y : Qltb x y = true <-> (x < y)%Q.
Proof. unfold Qltb. rewrite negb_true_iff. apply Qleb_gt. Qed.

Lemma Qltb_ge x y : Qltb x y = false <-> (y <= x)%Q.
Proof. unfold Qltb. rewrite negb_false_iff. apply Qle_bool_iff. Qed.

Lemma Qgtb_gt x y : Qgtb x y = true <-> (y < x)%Q.
Proof. unfold Qgtb. rewrite negb_true_iff. apply Qleb_gt. Qed.

Lemma Qeq_bool_false x y : Qeq_bool x y = false <-> ~ (x == y)%Q.
Proof. rewrite <- not_true_iff_false, Qeq_bool_iff. reflexivity. Qed.

(** Turn the boolean tests of the hypotheses and the goal into (in)equalities. *)
Ltac to_prop :=
  repeat match goal with
  | H : _ && _ = true |- _ => apply andb_true_iff in H; destruct H
  | H : _ || _ = false |- _ => apply orb_false_iff in H; destruct H
  | H : Qleb _ _ = true |- _ => apply Qleb_le in H
  | H : Qleb _ _ = false |- _ => apply Qleb_gt in H
  | H : Qgeb _ _ = true |- _ => apply Qgeb_le in H
  | H : Qgeb _ _ = false |- _ => apply Qgeb_lt in H
  | H : Qltb _ _ = true |- _ => apply Qltb_lt in H
  | H : Qltb _ _ = false |- _ => apply Qltb_ge in H
  | H : Qeq_bool _ _ = true |- _ => apply Qeq_bool_iff in H
  | H : Qeq_bool _ _ = false |- _ => apply Qeq_bool_false in H
  | H : (_ >=? _)%Z = true |- _ => apply Z.geb_le in H
  | H : (_ >=? _)%Z = false |- _ => rewrite Z.geb_leb in H; apply Z.leb_gt in H
  | H : (_ <? _)%Z = true |- _ => apply Z.ltb_lt in H
  | H : (_ <? _)%Z = false |- _ => apply Z.ltb_ge in H
  | H : (_ <=? _)%Z = true |- _ => apply Z.leb_le in H
  | H : (_ =? _)%Z = true |- _ => apply Z.eqb_eq in H
  | H : (_ =? _)%Z = false |- _ => apply Z.eqb_neq in H
  end.

(** ** Extraction of the readings *)

(** On the dict of a model every conversion succeeds; the readings are the
    sample's values, except that a battery voltage of zero reads as 12.5. *)
Lemma extract_fields_to_dict (p : TelemetryPayload) :
  exists r,
    extract_fields (to_dict p) = inr r
    /\ (coolant_temp r == coolant_temp_c p)%Q
    /\ (coolant_pressure r == coolant_pressure_bar p)%Q
    /\ battery r = (if Qeq_bool (battery_voltage p) 0 then 12.5%Q else battery_voltage p)
    /\ rpm r = engine_rpm p
    /\ (vibration r == vibration_level p)%Q
    /\ (odometer r == odometer_km p)%Q.
Proof.
  unfold extract_fields, dict_get, to_dict.
  simplify_map_eq. unfold py_or, truthy.
  destruct (Qeq_bool (coolant_temp_c p) 0) eqn:Ht,
           (Qeq_bool (coolant_pressure_bar p) 0) eqn:Hp,
           (Qeq_bool (battery_voltage p) 0) eqn:Hb,
           (engine_rpm p =? 0)%Z eqn:Hr,
           (Qeq_bool (vibration_level p) 0) eqn:Hv,
           (Qeq_bool (odometer_km p) 0) eqn:Ho;
    cbn; eexists; (split; [reflexivity|]); cbn; to_prop;
    repeat split; try reflexivity; try lra; try lia.
Qed.

(** The increment table is what the helper looks up, for every string. *)
Lemma estimate_failure_km_increment (base : Q) (sev : string) :
  estimate_failure_km base sev = (base + severity_increment sev)%Q.
Proof.
  unfold estimate_failure_km, severity_increment, increments.
  destruct (String.eqb_spec sev "critical") as [->|H1]; [reflexivity|].
  destruct (String.eqb_spec sev "high") as [->|H2]; [reflexivity|].
  destruct (String.eqb_spec sev "medium") as [->|H3]; [reflexivity|].
  destruct (String.eqb_spec sev "low") as [->|H4]; [reflexivity|].
  now rewrite !lookup_insert_ne, lookup_empty by congruence.
Qed.

Section DetectorFacts.
Context {Llm Repo : Type}.
Implicit Types (w : world Llm Repo) (p : TelemetryPayload) (r : readings).

Lemma add_log_add_log w l1 l2 :
  add_log (add_log w l1) l2 = add_log w (l1 ++ l2).
Proof. unfold add_log; cbn. now rewrite <- app_assoc. Qed.

Lemma add_log_nil w : add_log w [] = w.
Proof. destruct w; unfold add_log; cbn. now rewrite app_nil_r. Qed.

(** The chain of [if]s returns the first match of the rule list, and only
    writes to the log. *)
Lemma rule_set_first_match r w :
  exists l, rule_set r w = (inr (first_match r), add_log w l).
Proof.
  unfold rule_set, first_match, rules; cbn [find fst snd].
  destruct (coolant_rule r); [exists []; now rewrite add_log_nil|].
  destruct (charging_rule r); [exists []; now rewrite add_log_nil|].
  destruct (high_vibration_rule r); [exists []; now rewrite add_log_nil|].
  destruct (mild_vibration_rule r); [exists []; now rewrite add_log_nil|].
  eexists. run_monad. reflexivity.
Qed.

Lemma detect_model p w r :
  extract_fields (to_dict p) = inr r ->
  exists l, detect (PModel p) w = (inr (first_match r), add_log w l).
Proof.
  intros Hr. unfold detect, normalise. run_monad. rewrite Hr.
  match goal with |- context [rule_set r ?w'] =>
    destruct (rule_set_first_match r w') as [l ->] end.
  eexists. unfold add_log; cbn. rewrite <- !app_assoc. reflexivity.
Qed.

(** [detect] is total on models, and its result does not depend on the
    world it runs in. *)
Lemma detect_model_total p :
  exists r, extract_fields (to_dict p) = inr r
    /\ forall w, exists l, detect (PModel p) w = (inr (first_match r), add_log w l).
Proof.
  destruct (extract_fields_to_dict p) as (r & Hr & _).
  exists r. split; [exact Hr|]. intros w. now apply detect_model.
Qed.
End DetectorFacts.

(** ** The rule set *)

Section DetectorClaims.
Context {Llm Repo : Type}.
Implicit Types (w : world Llm Repo) (p : TelemetryPayload) (r : readings).

(** C2.  On an in-range sample the coolant rule fires (the result names
    coolant_pump) exactly when coolant_temp_c >= 120, or coolant_temp_c >=
    110 and coolant_pressure_bar >= 2.5; the result is then an anomaly of
    severity critical from 135 on, high from 125 on, medium below. *)
Theorem coolant_rule_thresholds p w :
  in_range p = true ->
  exists res,
    fst (detect (PModel p) w) = inr res
    /\ (component res = Some "coolant_pump"
        <-> (120 <= coolant_temp_c p
             \/ (110 <= coolant_temp_c p /\ 2.5 <= coolant_pressure_bar p))%Q)
    /\ (component res = Some "coolant_pump" ->
        is_anomaly res = true
        /\ ((135 <= coolant_temp_c p)%Q -> severity res = Some "critical")
        /\ ((125 <= coolant_temp_c p < 135)%Q -> severity res = Some "high")
        /\ ((coolant_temp_c p < 125)%Q -> severity res = Some "medium")).
Proof.
  intros _.
  destruct (extract_fields_to_dict p) as (r & Hr & Ht & Hp & _).
  destruct (detect_model p w r Hr) as [l ->]. cbn [fst].
  exists (first_match r). split; [reflexivity|].
  unfold first_match, rules; cbn [find fst snd].
  destruct (coolant_rule r) eqn:Hc; unfold coolant_rule in Hc.
  - split.
    + split; [intros _ | reflexivity].
      apply orb_true_iff in Hc as [Hc|Hc]; to_prop; [left|right]; lra.
    + intros _. cbn.
      destruct (Qgeb (coolant_temp r) 135) eqn:H135;
        [|destruct (Qgeb (coolant_temp r) 125) eqn:H125];
        to_prop; repeat split; intros; try reflexivity; lra.
  - assert (Hno : ~ (120 <= coolant_temp_c p
                     \/ (110 <= coolant_temp_c p /\ 2.5 <= coolant_pressure_bar p))%Q).
    { apply orb_false_iff in Hc as [H120 Hc]. to_prop.
      apply andb_false_iff in Hc as [Hc|Hc]; to_prop; lra. }
    assert (Hcomp : component
              (match (if charging_rule r then Some (charging_rule, charging_result)
                      else if high_vibration_rule r
                           then Some (high_vibration_rule, high_vibration_result)
                           else if mild_vibration_rule r
                                then Some (mild_vibration_rule, mild_vibration_result)
                                else None)
               with Some rule => snd rule r | None => no_anomaly end)
            <> Some "coolant_pump").
    { destruct (charging_rule r); [cbn; discriminate|].
      destruct (high_vibration_rule r); [cbn; discriminate|].
      destruct (mild_vibration_rule r); cbn; discriminate. }
    split; [split; intros; tauto | intros; tauto].
Qed.

(** C4.  The helper adds to the odometer 200 for critical, 1000 for high,
    5000 for medium, 15000 for low and 8000 for every other severity
    string; and whenever [detect] reports an anomaly on an in-range
    sample, predicted_failure_km is the sample's odometer reading plus the
    increment of the reported severity. *)
Theorem predicted_failure_distance :
  (forall (base : Q) (sev : string),
      estimate_failure_km base sev = (base + severity_increment sev)%Q)
  /\ (forall p w res,
        in_range p = true ->
        fst (detect (PModel p) w) = inr res ->
        is_anomaly res = true ->
        exists sev km,
          severity res = Some sev
          /\ predicted_failure_km res = Some km
          /\ (km == odometer_km p + severity_increment sev)%Q).
Proof.
  split; [exact estimate_failure_km_increment|].
  intros p w res _ Hres Hanom.
  destruct (extract_fields_to_dict p) as (r & Hr & _ & _ & _ & _ & _ & Ho).
  destruct (detect_model p w r Hr) as [l Hd]. rewrite Hd in Hres.
  cbn [fst] in Hres. injection Hres as <-.
  revert Hanom. unfold first_match, rules; cbn [find fst snd].
  destruct (coolant_rule r); [|destruct (charging_rule r);
    [|destruct (high_vibration_rule r); [|destruct (mild_vibration_rule r)]]];
    cbn [snd]; intros Hanom; try discriminate Hanom;
    eexists _, _; (split; [reflexivity|]); (split; [reflexivity|]);
    rewrite estimate_failure_km_increment, Ho; reflexivity.
Qed.

(** C8.  [detect] is deterministic and reads no hidden state: on an
    in-range sample it returns one classification [res], the same from
    every world: from [w], from the world its first run leaves behind
    (the second of two calls in a row), and from any other world [w']. *)
Theorem detect_deterministic p w w' :
  in_range p = true ->
  exists res,
    fst (detect (PModel p) w) = inr res
    /\ fst (detect (PModel p) (snd (detect (PModel p) w))) = inr res
    /\ fst (detect (PModel p) w') = inr res.
Proof.
  intros _. destruct (detect_model_total (Llm:=Llm) (Repo:=Repo) p) as (r & _ & Hd).
  exists (first_match r).
  destruct (Hd w) as [l1 H1]. rewrite H1; cbn [fst snd].
  destruct (Hd (add_log w l1)) as [l2 ->].
  destruct (Hd w') as [l3 ->]. auto.
Qed.

(** C10.  The gap between the vibration rules: on an in-range sample with
    vibration_level in [60, 80) and engine_rpm >= 2500 on which neither
    the coolant rule nor the charging rule fires, [detect] reports no
    anomaly. *)
Theorem vibration_gap p w r :
  in_range p = true ->
  extract_fields (to_dict p) = inr r ->
  coolant_rule r = false ->
  charging_rule r = false ->
  (60 <= vibration_level p < 80)%Q ->
  (2500 <= engine_rpm p)%Z ->
  fst (detect (PModel p) w) = inr no_anomaly
  /\ high_vibration_rule r = false /\ mild_vibration_rule r = false.
Proof.
  intros _ Hr Hc Hb Hv Hrpm.
  destruct (extract_fields_to_dict p) as (r' & Hr' & _ & _ & _ & Hrp & Hvib & _).
  rewrite Hr in Hr'. injection Hr' as <-.
  assert (Hhigh : high_vibration_rule r = false).
  { unfold high_vibration_rule. apply andb_false_iff. left.
    apply Qgeb_lt. lra. }
  assert (Hmild : mild_vibration_rule r = false).
  { unfold mild_vibration_rule. apply andb_false_iff. right.
    apply Z.ltb_ge. lia. }
  destruct (detect_model p w r Hr) as [l ->]. cbn [fst].
  unfold first_match, rules; cbn [find fst snd].
  now rewrite Hc, Hb, Hhigh, Hmild.
Qed.
End DetectorClaims.

(** The three boundary temperatures. *)
Lemma coolant_rule_thresholds_witness :
  (exists res,
      fst (detect (PModel (sample 120.0 1.0 1500 10 13.0 10000)) demo_world) = inr res
      /\ component res = Some "coolant_pump" /\ severity res = Some "medium")
  /\ (exists res,
      fst (detect (PModel (sample 134.9 1.0 1500 10 13.0 10000)) demo_world) = inr res
      /\ component res = Some "coolant_pump" /\ severity res = Some "high")
  /\ (exists res,
      fst (detect (PModel (sample 135.0 1.0 1500 10 13.0 10000)) demo_world) = inr res
      /\ component res = Some "coolant_pump" /\ severity res = Some "critical").
Proof.
  split; [|split].
  - destruct (coolant_rule_thresholds (sample 120.0 1.0 1500 10 13.0 10000) demo_world
                eq_refl) as (res & Hres & Hiff & Hsev).
    exists res. split; [exact Hres|].
    assert (Hc : component res = Some "coolant_pump") by (apply Hiff; cbn; lra).
    split; [exact Hc|]. apply (Hsev Hc). cbn; lra.
  - destruct (coolant_rule_thresholds (sample 134.9 1.0 1500 10 13.0 10000) demo_world
                eq_refl) as (res & Hres & Hiff & Hsev).
    exists res. split; [exact Hres|].
    assert (Hc : component res = Some "coolant_pump") by (apply Hiff; cbn; lra).
    split; [exact Hc|]. apply (Hsev Hc). cbn; lra.
  - destruct (coolant_rule_thresholds (sample 135.0 1.0 1500 10 13.0 10000) demo_world
                eq_refl) as (res & Hres & Hiff & Hsev).
    exists res. split; [exact Hres|].
    assert (Hc : component res = Some "coolant_pump") by (apply Hiff; cbn; lra).
    split; [exact Hc|]. apply (Hsev Hc). cbn; lra.
Defined.

(** Odometer 10000 km, coolant rule firing at severity high: 11000 km. *)
Lemma predicted_failure_distance_witness :
  in_range (sample 130 1.0 1500 10 13.0 10000) = true
  /\ exists res,
       fst (detect (PModel (sample 130 1.0 1500 10 13.0 10000)) demo_world) = inr res
       /\ is_anomaly res = true
       /\ severity res = Some "high"
       /\ exists km, predicted_failure_km res = Some km /\ (km == 11000)%Q.
Proof.
  split; [reflexivity|].
  eexists. split; [reflexivity|]. split; [reflexivity|]. split; [reflexivity|].
  destruct (proj2 (predicted_failure_distance (Llm:=nat) (Repo:=list Fault.FaultRecord))
              (sample 130 1.0 1500 10 13.0 10000) demo_world _
              eq_refl eq_refl eq_refl) as (sev & km & Hsev & Hkm & Heq).
  exists km. split; [exact Hkm|].
  injection Hsev as <-. exact Heq.
Defined.

Lemma detect_deterministic_witness :
  in_range (sample 140 1.0 3000 90 10.0 10000) = true
  /\ exists res,
       fst (detect (PModel (sample 140 1.0 3000 90 10.0 10000)) demo_world) = inr res
       /\ fst (detect (PModel (sample 140 1.0 3000 90 10.0 10000))
                 (snd (detect (PModel (sample 140 1.0 3000 90 10.0 10000)) demo_world)))
          = inr res
       /\ fst (detect (PModel (sample 140 1.0 3000 90 10.0 10000))
                 (World [] [] 7%nat (@nil Fault.FaultRecord) 3%N 0%Z)) = inr res.
Proof.
  split; [reflexivity|].
  apply (detect_deterministic (sample 140 1.0 3000 90 10.0 10000) demo_world
           (World [] [] 7%nat (@nil Fault.FaultRecord) 3%N 0%Z)).
  reflexivity.
Defined.

(** Vibration 70 at 3000 rpm, healthy coolant and battery. *)
Lemma vibration_gap_witness :
  in_range (sample 90 1.0 3000 70 13.0 10000) = true
  /\ fst (detect (PModel (sample 90 1.0 3000 70 13.0 10000)) demo_world) = inr no_anomaly.
Proof.
  split; [reflexivity|].
  apply (vibration_gap (sample 90 1.0 3000 70 13.0 10000) demo_world
           {| coolant_temp := 90; coolant_pressure := 1.0; battery := 13.0;
              rpm := 3000; vibration := 70; odometer := 10000 |}).
  - reflexivity.
  - reflexivity.
  - reflexivity.
  - reflexivity.
  - cbn; lra.
  - cbn; lia.
Defined.


(** The failing input of C3: a supplied battery voltage of 0.0 V is in range
    and at most 11.3, the coolant rule does not fire, yet [detect] reads the
    voltage as 12.5 and reports no anomaly. *)
Theorem zero_battery_voltage_reads_healthy :
  in_range (sample 90 1.0 1500 10 0.0 10000) = true
  /\ (0 <= battery_voltage (sample 90 1.0 1500 10 0.0 10000) <= 11.3)%Q
  /\ extract_fields (to_dict (sample 90 1.0 1500 10 0.0 10000))
     = inr {| coolant_temp := 90; coolant_pressure := 1.0; battery := 12.5;
              rpm := 1500; vibration := 10; odometer := 10000 |}
  /\ coolant_rule {| coolant_temp := 90; coolant_pressure := 1.0; battery := 12.5;
                     rpm := 1500; vibration := 10; odometer := 10000 |} = false
  /\ fst (detect (PModel (sample 90 1.0 1500 10 0.0 10000)) demo_world) = inr no_anomaly.
Proof.
  split; [reflexivity|]. split; [cbn; lra|].
  split; [reflexivity|]. split; reflexivity.
Qed.

Section ChargingRule.
Context {Llm Repo : Type}.
Implicit Types (w : world Llm Repo) (p : TelemetryPayload) (r : readings).

(** What does hold of the charging rule: for a supplied voltage other than
    zero it fires exactly up to 11.3, high up to 10.5 and medium above. *)
Lemma charging_rule_nonzero_voltage p w r :
  extract_fields (to_dict p) = inr r ->
  coolant_rule r = false ->
  ~ (battery_voltage p == 0)%Q ->
  exists res,
    fst (detect (PModel p) w) = inr res
    /\ (component res = Some "alternator" <-> (battery_voltage p <= 11.3)%Q)
    /\ ((battery_voltage p <= 10.5)%Q -> severity res = Some "high")
    /\ ((10.5 < battery_voltage p <= 11.3)%Q -> severity res = Some "medium").
Proof.
  intros Hr Hc Hnz.
  destruct (extract_fields_to_dict p) as (r' & Hr' & _ & _ & Hb & _).
  rewrite Hr in Hr'. injection Hr' as <-.
  apply Qeq_bool_false in Hnz. rewrite Hnz in Hb.
  destruct (detect_model p w r Hr) as [l ->]. cbn [fst].
  exists (first_match r). split; [reflexivity|].
  unfold first_match, rules; cbn [find fst snd]. rewrite Hc.
  assert (Hcr : charging_rule r = Qleb (battery_voltage p) 11.3)
    by (unfold charging_rule; now rewrite Hb).
  rewrite Hcr.
  destruct (Qleb (battery_voltage p) 11.3) eqn:H113; to_prop.
  - cbn. rewrite Hb.
    destruct (Qleb (battery_voltage p) 10.5) eqn:H105; to_prop;
      repeat split; intros; try reflexivity; try assumption; lra.
  - split; [split; intros Hx; [|lra]|split; intros; lra].
    revert Hx.
    destruct (high_vibration_rule r); [cbn; discriminate|].
    destruct (mild_vibration_rule r); cbn; discriminate.
Qed.

(** A dict without a battery voltage reads as 12.5 V: the rule stays silent. *)
Lemma missing_battery_voltage_defaults (d : gmap string value) r :
  d !! "battery_voltage" = None ->
  extract_fields d = inr r ->
  battery r = 12.5%Q /\ charging_rule r = false.
Proof.
  intros Hd. unfold extract_fields, dict_get. rewrite Hd. cbn [default py_or truthy py_float].
  unfold and_then. intros Hr.
  repeat match type of Hr with
         | match ?x with _ => _ end = _ => destruct x; [discriminate Hr|]
         end.
  injection Hr as <-. split; reflexivity.
Qed.
End ChargingRule.

(** ** The pipeline *)

Section PipelineFacts.
Context {Llm Repo : Type}.
Context {TG : TextGeneration Llm} {FR : FaultRepository Repo} {RT : Runtime}.
Implicit Types (w : world Llm Repo) (p : TelemetryPayload) (a : AnomalyResult).

Lemma after_calls_nil w : after_calls w [] (w_llm w) = w.
Proof. destruct w; unfold after_calls; cbn. now rewrite app_nil_r. Qed.

Lemma after_calls_after_calls w cs1 cs2 (g1 g2 : Llm) :
  after_calls (after_calls w cs1 g1) cs2 g2 = after_calls w (cs1 ++ cs2) g2.
Proof. unfold after_calls; cbn. now rewrite <- app_assoc. Qed.

(** A stage of the loop is [attempts] at the provider; every attempt is a
    call on record. *)
Lemma execute_with_retry_attempts (n : nat) (t : Task) outs w :
  execute_with_retry n t outs w
  = (fst (fst (attempts n t outs (w_llm w))),
     after_calls w (replicate (snd (attempts n t outs (w_llm w))) (llm_call t))
       (snd (fst (attempts n t outs (w_llm w))))).
Proof.
  revert w. induction n as [|n IH]; intros w; cbn [execute_with_retry attempts];
    unfold try_except, call_llm, raise;
    destruct (execute_task (agent t) t outs (w_llm w)) as [[e|out] g']; try reflexivity.
  rewrite IH. cbn [w_llm].
  destruct (attempts n t outs g') as [[r g''] k]. cbn [fst snd].
  unfold after_calls; cbn. now rewrite <- app_assoc.
Qed.

(** [kickoff] is [crew_stages] at the provider. *)
Lemma run_tasks_crew_stages (ts : list Task) outs w :
  run_tasks ts outs w
  = (fst (fst (crew_stages ts outs (w_llm w))),
     after_calls w (snd (crew_stages ts outs (w_llm w)))
       (snd (fst (crew_stages ts outs (w_llm w))))).
Proof.
  revert outs w. induction ts as [|t ts IH]; intros outs w; cbn [run_tasks crew_stages].
  - unfold ret. cbn. now rewrite after_calls_nil.
  - unfold bind. rewrite execute_with_retry_attempts.
    destruct (attempts max_retry_limit t outs (w_llm w)) as [[[e|out] g'] k]; cbn [fst snd].
    + reflexivity.
    + rewrite IH. cbn [w_llm after_calls].
      destruct (crew_stages ts (outs ++ [out]) g') as [[r g''] cs]. cbn [fst snd].
      now rewrite after_calls_after_calls.
Qed.

(** A stage that answers at its first call is not retried. *)
Lemma attempts_first_call (n : nat) (t : Task) outs (g g' : Llm) out :
  execute_task (agent t) t outs g = (inr out, g') ->
  attempts n t outs g = (inr out, g', 1%nat).
Proof. intros H. destruct n; cbn; now rewrite H. Qed.

(** A stage that fails has used all its attempts. *)
Lemma attempts_fail_count (n : nat) (t : Task) outs (g g' : Llm) e k :
  attempts n t outs g = (inl e, g', k) -> k = S n.
Proof.
  revert g k. induction n as [|n IH]; intros g k; cbn;
    destruct (execute_task (agent t) t outs g) as [[e0|out] g0]; try discriminate.
  - now intros [= _ _ <-].
  - destruct (attempts n t outs g0) as [[r g1] k0] eqn:E.
    intros [= -> -> <-]. f_equal. eapply IH, E.
Qed.

(** A failing stage raised at every one of its attempts. *)
Lemma attempts_fail_first (n : nat) (t : Task) outs (g g' : Llm) e k :
  attempts n t outs g = (inl e, g', k) ->
  exists e0 g0, execute_task (agent t) t outs g = (inl e0, g0).
Proof.
  destruct n; cbn; destruct (execute_task (agent t) t outs g) as [[e0|out] g0];
    try discriminate; eauto.
Qed.

Lemma stages_crew_stages (ts : list Task) outs (g g' : Llm) o :
  stages ts outs g = (inr o, g') ->
  crew_stages ts outs g = (inr o, g', map llm_call ts).
Proof.
  revert outs g. induction ts as [|t ts IH]; intros outs g Hs;
    cbn [stages] in Hs; cbn [crew_stages map].
  - now injection Hs as <- <-.
  - destruct (execute_task (agent t) t outs g) as [[e|out] g0] eqn:E; [discriminate Hs|].
    rewrite (attempts_first_call _ _ _ _ _ _ E), (IH _ _ Hs). reflexivity.
Qed.


(** The stages before a failing one answer, the failing one uses up its
    attempts: the stages after it are not reached. *)
Lemma crew_stages_fail (pre post : list Task) (t : Task) outs (g g1 g2 : Llm) o cs e k :
  crew_stages pre outs g = (inr o, g1, cs) ->
  attempts max_retry_limit t o g1 = (inl e, g2, k) ->
  crew_stages (pre ++ t :: post) outs g = (inl e, g2, (cs ++ replicate k (llm_call t))%list).
Proof.
  revert outs g cs. induction pre as [|t0 pre IH]; intros outs g cs Hs Ht;
    cbn [crew_stages] in Hs; cbn [crew_stages app].
  - injection Hs as <- <- <-. now rewrite Ht.
  - destruct (attempts max_retry_limit t0 outs g) as [[[e0|out] g0] k0]; [discriminate Hs|].
    destruct (crew_stages pre (outs ++ [out]) g0) as [[r g'] cs0] eqn:E.
    injection Hs as -> -> <-.
    rewrite (IH _ _ _ E Ht). now rewrite <- app_assoc.
Qed.

(** The calls of the stages are calls of their tasks, and every stage that
    was reached was called. *)
Lemma crew_stages_calls (ts : list Task) outs (g g' : Llm) r cs :
  crew_stages ts outs g = (r, g', cs) ->
  Forall (fun c => In c (map llm_call ts)) cs.
Proof.
  revert outs g g' r cs.
  induction ts as [|t ts IH]; intros outs g g' r cs; cbn [crew_stages map].
  - intros [= _ _ <-]. constructor.
  - destruct (attempts max_retry_limit t outs g) as [[[e0|out] g0] k0].
    + intros [= _ _ <-]. apply Forall_forall. intros c Hc.
      apply elem_of_replicate in Hc as [-> _]. now left.
    + destruct (crew_stages ts (outs ++ [out]) g0) as [[r0 g1] cs0] eqn:E.
      intros [= _ _ <-]. apply Forall_app. split.
      * apply Forall_forall. intros c Hc.
        apply elem_of_replicate in Hc as [-> _]. now left.
      * eapply Forall_impl; [eapply IH, E|]. intros c Hc. now right.
Qed.

Lemma attempts_count_pos (n : nat) (t : Task) outs (g : Llm) :
  (0 < snd (attempts n t outs g))%nat.
Proof.
  destruct n; cbn; destruct (execute_task (agent t) t outs g) as [[e|out] g0];
    cbn; try lia.
  destruct (attempts n t outs g0) as [[r g1] k]. cbn. lia.
Qed.

Lemma crew_stages_all_called (ts : list Task) outs (g g' : Llm) o cs :
  crew_stages ts outs g = (inr o, g', cs) ->
  (forall t, In t ts -> In (llm_call t) cs)
  /\ length o = (length outs + length ts)%nat.
Proof.
  revert outs g g' o cs.
  induction ts as [|t ts IH]; intros outs g g' o cs; cbn [crew_stages].
  - intros [= <- _ _]. split; [intros t []|cbn; lia].
  - pose proof (attempts_count_pos max_retry_limit t outs g) as Hk.
    destruct (attempts max_retry_limit t outs g) as [[[e0|out] g0] k0]; [discriminate|].
    destruct (crew_stages ts (outs ++ [out]) g0) as [[r0 g1] cs0] eqn:E.
    intros [= -> _ <-]. destruct (IH _ _ _ _ _ E) as [Hall Hlen]. split.
    + intros t' [<-|Hin].
      * apply in_or_app. left. cbn in Hk. destruct k0; [lia|]. now left.
      * apply in_or_app. right. now apply Hall.
    + rewrite Hlen, length_app. cbn. lia.
Qed.

(** A failing stage: [run_pipeline] logs and re-raises; no id is drawn, no
    record is built, the repository is not called. *)
Lemma run_pipeline_stage_fails p a w (g : Llm) cs e :
  crew_stages (_build_tasks (build_context p a)) [] (w_llm w) = (inl e, g, cs) ->
  exists l1 l2,
    run_pipeline p a w = (inl e, add_log (after_calls (add_log w l1) cs g) l2).
Proof.
  intros Hs. unfold run_pipeline, kickoff.
  run_monad. rewrite run_tasks_crew_stages. cbn [w_llm]. rewrite Hs. cbn [fst snd].
  eexists [_], [_]. reflexivity.
Qed.

(** All stages answer, retried or not, and the record validates: the
    return value is built from the context, the outputs and the fresh id;
    [save_fault] is called once, and its outcome only shows in the
    repository and the log. *)
Lemma run_pipeline_crew_ok p a w outs (g : Llm) cs f :
  crew_stages (_build_tasks (build_context p a)) [] (w_llm w) = (inr outs, g, cs) ->
  new_fault_record (generate_id (w_seed w)) (vin p) (w_now w)
    (float_or (predicted_failure_km a) 200.0)
    (str_or (component a) "unknown")
    (str_or (severity a) "medium")
    (build_context p a) = inr f ->
  exists w',
    run_pipeline p a w
    = (inr {| context := build_context p a;
              crew_output := crew_output_str outs;
              fault_id := Fault.id f |}, w')
    /\ w_calls w' = (w_calls w ++ cs ++ [CallSave f])%list
    /\ w_repo w' = snd (save_fault f (w_repo w))
    /\ w_seed w' = N.succ (w_seed w).
Proof.
  intros Hs Hf. unfold run_pipeline, kickoff. run_monad.
  rewrite run_tasks_crew_stages. cbn [w_llm]. rewrite Hs. cbn [fst snd].
  unfold fresh_id, utcnow; cbn. rewrite Hf.
  unfold call_save; cbn.
  destruct (save_fault f (w_repo w)) as [[e|[]] s]; cbn;
    eexists; (split; [reflexivity|]); cbn; rewrite <- ?app_assoc; auto.
Qed.

(** All stages answer but the record does not validate: the constructor
    raises after an id was drawn and before the repository is reached. *)
Lemma run_pipeline_crew_invalid p a w outs (g : Llm) cs e :
  crew_stages (_build_tasks (build_context p a)) [] (w_llm w) = (inr outs, g, cs) ->
  new_fault_record (generate_id (w_seed w)) (vin p) (w_now w)
    (float_or (predicted_failure_km a) 200.0)
    (str_or (component a) "unknown")
    (str_or (severity a) "medium")
    (build_context p a) = inl e ->
  exists w',
    run_pipeline p a w = (inl e, w')
    /\ w_calls w' = (w_calls w ++ cs)%list
    /\ w_repo w' = w_repo w.
Proof.
  intros Hs Hf. unfold run_pipeline, kickoff. run_monad.
  rewrite run_tasks_crew_stages. cbn [w_llm]. rewrite Hs. cbn [fst snd].
  unfold fresh_id, utcnow; cbn. rewrite Hf.
  eexists. split; [reflexivity|]. cbn. auto.
Qed.


(** All stages answer but the record does not validate: the constructor
    raises before the repository is reached. *)
Lemma run_pipeline_invalid_record p a w outs g e :
  stages (_build_tasks (build_context p a)) [] (w_llm w) = (inr outs, g) ->
  new_fault_record (generate_id (w_seed w)) (vin p) (w_now w)
    (float_or (predicted_failure_km a) 200.0)
    (str_or (component a) "unknown")
    (str_or (severity a) "medium")
    (build_context p a) = inl e ->
  fst (run_pipeline p a w) = inl e.
Proof.
  intros Hs Hf.
  destruct (run_pipeline_crew_invalid p a w outs g _ e (stages_crew_stages _ _ _ _ _ Hs) Hf)
    as (w' & -> & _).
  reflexivity.
Qed.

(** [detect] on a model only writes to the log, and returns the same
    result from every world. *)
Lemma detect_result_any_world p w a (w0 : world Llm Repo) :
  fst (detect (PModel p) w) = inr a ->
  exists l, detect (PModel p) w0 = (inr a, add_log w0 l).
Proof.
  intros Ha. destruct (detect_model_total (Llm:=Llm) (Repo:=Repo) p) as (r & _ & Hd).
  destruct (Hd w) as [l Hw]. rewrite Hw in Ha. injection Ha as <-.
  apply Hd.
Qed.

(** The caller's guard: a classification without an anomaly ends
    [ingest_telemetry] before the pipeline. *)
Lemma ingest_telemetry_guard p w a :
  fst (detect (PModel p) w) = inr a ->
  is_anomaly a = false ->
  exists w',
    ingest_telemetry p w
    = (inr {| Response.status := "ok"; Response.anomaly := false;
              Response.message := Some "No anomaly detected.";
              Response.fault_id := None; Response.summary := None;
              Response.crew_output := None |}, w')
    /\ w_calls w' = w_calls w
    /\ w_llm w' = w_llm w
    /\ w_repo w' = w_repo w
    /\ w_seed w' = w_seed w.
Proof.
  intros Ha Hflag. unfold ingest_telemetry. run_monad.
  match goal with |- context [detect (PModel p) ?w0] =>
    destruct (detect_result_any_world p w a w0 Ha) as [l ->] end.
  rewrite Hflag. cbn [negb].
  eexists. split; [reflexivity|]. cbn. auto.
Qed.
End PipelineFacts.

Section PipelineClaims.
Context {Llm Repo : Type}.
Context {TG : TextGeneration Llm} {FR : FaultRepository Repo} {RT : Runtime}.
Implicit Types (w : world Llm Repo) (p : TelemetryPayload) (a : AnomalyResult).

(** C5, as amended.  A stage that fails aborts the run.  Let the sample
    classify as an anomaly, let the stages [pre] answer (at once or after
    retries, with the calls [cs]) and let the next stage [t] raise at
    every attempt CrewAI makes at it, the last time with [e].  The
    attempts are three: the first call and two retries.  Then
    [run_pipeline] raises [e] to its caller and [ingest_telemetry] raises
    the internal-processing error; in both, the calls made are the calls
    of the stages [pre] and the three of [t], so none of the remaining
    stages [post] and no [save_fault]; no id is drawn for a record and
    the repository is untouched. *)
Theorem generation_failure_aborts p a w (pre post : list Task) (t : Task)
    (outs : list string) (g1 g2 : Llm) (cs : list call) (k : nat) (e : exn) :
  in_range p = true ->
  fst (detect (PModel p) w) = inr a ->
  is_anomaly a = true ->
  _build_tasks (build_context p a) = (pre ++ t :: post)%list ->
  crew_stages pre [] (w_llm w) = (inr outs, g1, cs) ->
  attempts max_retry_limit t outs g1 = (inl e, g2, k) ->
  k = 3%nat
  /\ Forall (fun c => In c (map llm_call pre)) cs
  /\ (exists w',
      run_pipeline p a w = (inl e, w')
      /\ w_calls w' = (w_calls w ++ cs ++ replicate 3 (llm_call t))%list
      /\ w_repo w' = w_repo w
      /\ w_seed w' = w_seed w)
  /\ (exists w',
      ingest_telemetry p w
      = (inl (HTTPException 500 "Internal processing error; please try again later."), w')
      /\ w_calls w' = (w_calls w ++ cs ++ replicate 3 (llm_call t))%list
      /\ w_repo w' = w_repo w
      /\ w_seed w' = w_seed w).
Proof.
  intros _ Ha Hanom Hts Hs Ht.
  pose proof (attempts_fail_count _ _ _ _ _ _ _ Ht) as Hk. unfold max_retry_limit in Hk.
  subst k.
  pose proof (crew_stages_fail pre post t [] (w_llm w) g1 g2 outs cs e 3 Hs Ht) as Hfail.
  rewrite <- Hts in Hfail.
  split; [reflexivity|]. split; [exact (crew_stages_calls _ _ _ _ _ _ Hs)|]. split.
  - destruct (run_pipeline_stage_fails p a w g2 _ e Hfail) as (l1 & l2 & ->).
    eexists. split; [reflexivity|]. cbn. auto.
  - unfold ingest_telemetry. run_monad.
    match goal with |- context [detect (PModel p) ?w0] =>
      destruct (detect_result_any_world p w a w0 Ha) as [l ->] end.
    rewrite Hanom. cbn [negb].
    match goal with |- context [run_pipeline p a ?w1] =>
      destruct (run_pipeline_stage_fails p a w1 g2 _ e ltac:(cbn; exact Hfail))
        as (l1 & l2 & ->) end.
    eexists. split; [reflexivity|]. cbn. auto.
Qed.

(** C7.  When no rule fires on an in-range sample, [detect] returns
    is_anomaly false with component, severity, reason and
    predicted_failure_km absent, and [ingest_telemetry] answers that no
    anomaly was detected, with no fault id, summary or crew output, having
    called neither the text generation nor the repository. *)
Theorem no_rule_no_pipeline p w r :
  in_range p = true ->
  extract_fields (to_dict p) = inr r ->
  coolant_rule r = false ->
  charging_rule r = false ->
  high_vibration_rule r = false ->
  mild_vibration_rule r = false ->
  fst (detect (PModel p) w)
  = inr {| is_anomaly := false; component := None; severity := None;
           reason := None; predicted_failure_km := None |}
  /\ exists w',
      ingest_telemetry p w
      = (inr {| Response.status := "ok"; Response.anomaly := false;
                Response.message := Some "No anomaly detected.";
                Response.fault_id := None; Response.summary := None;
                Response.crew_output := None |}, w')
      /\ w_calls w' = w_calls w
      /\ w_llm w' = w_llm w
      /\ w_repo w' = w_repo w
      /\ w_seed w' = w_seed w.
Proof.
  intros _ Hr H1 H2 H3 H4.
  assert (Hfm : first_match r = no_anomaly).
  { unfold first_match, rules; cbn [find fst snd]. now rewrite H1, H2, H3, H4. }
  split.
  - destruct (detect_model p w r Hr) as [l ->]. cbn [fst]. now rewrite Hfm.
  - unfold ingest_telemetry. run_monad.
    match goal with |- context [detect (PModel p) ?w0] =>
      destruct (detect_model p w0 r Hr) as [l ->] end.
    rewrite Hfm. cbn [is_anomaly no_anomaly negb].
    eexists. split; [reflexivity|]. cbn. auto.
Qed.

(** C9, as amended.  [run_pipeline] does not check the flag.  Invoked with
    a classification whose is_anomaly is false, and with all five stages
    answering, it runs the five stages and builds the fault record from
    the classification's values, or the fallbacks unknown, medium and
    200.0 where they are absent.  A record that validates is handed to
    [save_fault] and the composite result is returned; otherwise the run
    raises the record's validation error and saves nothing; the record
    validates exactly when the severity, or medium in place of an absent
    or empty one, is one of low, medium, high and critical.  The outcome
    is the one for the same classification with the flag set.  The caller
    [ingest_telemetry] does not invoke the run on such a classification. *)
Theorem run_pipeline_does_not_check_flag p a w (outs : list string) (g : Llm)
    (cs : list call) :
  is_anomaly a = false ->
  crew_stages (_build_tasks (build_context p a)) [] (w_llm w) = (inr outs, g, cs) ->
  length (_build_tasks (build_context p a)) = 5%nat
  /\ (forall t, In t (_build_tasks (build_context p a)) -> In (llm_call t) cs)
  /\ (forall f,
        new_fault_record (generate_id (w_seed w)) (vin p) (w_now w)
          (float_or (predicted_failure_km a) 200.0)
          (str_or (component a) "unknown")
          (str_or (severity a) "medium")
          (build_context p a) = inr f ->
        (exists w',
            run_pipeline p a w
            = (inr {| context := build_context p a;
                      crew_output := crew_output_str outs;
                      fault_id := Fault.id f |}, w')
            /\ w_calls w' = (w_calls w ++ cs ++ [CallSave f])%list
            /\ w_repo w' = snd (save_fault f (w_repo w)))
        /\ (component a = None -> Fault.component f = "unknown")
        /\ (severity a = None -> Fault.severity f = "medium")
        /\ (predicted_failure_km a = None -> Fault.predicted_failure_km f = 200.0%Q))
  /\ (forall e,
        new_fault_record (generate_id (w_seed w)) (vin p) (w_now w)
          (float_or (predicted_failure_km a) 200.0)
          (str_or (component a) "unknown")
          (str_or (severity a) "medium")
          (build_context p a) = inl e ->
        exists w',
          run_pipeline p a w = (inl e, w')
          /\ w_calls w' = (w_calls w ++ cs)%list
          /\ w_repo w' = w_repo w)
  /\ returned (new_fault_record (generate_id (w_seed w)) (vin p) (w_now w)
                 (float_or (predicted_failure_km a) 200.0)
                 (str_or (component a) "unknown")
                 (str_or (severity a) "medium")
                 (build_context p a))
     = Fault.severity_literal (str_or (severity a) "medium")
  /\ run_pipeline p
       {| is_anomaly := true; component := component a; severity := severity a;
          reason := reason a; predicted_failure_km := predicted_failure_km a |} w
     = run_pipeline p a w
  /\ (forall w0, fst (detect (PModel p) w0) = inr a ->
        exists w',
          ingest_telemetry p w0
          = (inr {| Response.status := "ok"; Response.anomaly := false;
                    Response.message := Some "No anomaly detected.";
                    Response.fault_id := None; Response.summary := None;
                    Response.crew_output := None |}, w')
          /\ w_calls w' = w_calls w0
          /\ w_repo w' = w_repo w0).
Proof.
  intros Hflag Hs.
  split; [reflexivity|].
  split; [exact (proj1 (crew_stages_all_called _ _ _ _ _ _ Hs))|].
  split; [|split; [|split; [|split]]].
  - intros f Hf. split.
    + destruct (run_pipeline_crew_ok p a w outs g cs f Hs Hf) as (w' & Hrun & Hc & Hrepo & _).
      exists w'. auto.
    + unfold new_fault_record in Hf.
      destruct (Fault.severity_literal _); [|discriminate Hf].
      injection Hf as <-. cbn.
      repeat split; intros ->; reflexivity.
  - intros e Hf. exact (run_pipeline_crew_invalid p a w outs g cs e Hs Hf).
  - unfold new_fault_record. now destruct (Fault.severity_literal _).
  - destruct a; reflexivity.
  - intros w0 Ha.
    destruct (ingest_telemetry_guard p w0 a Ha Hflag) as (w' & Hrun & Hc & _ & Hrepo & _).
    exists w'. auto.
Qed.
End PipelineClaims.

Section Persistence.
Context {Llm : Type} {TG : TextGeneration Llm} {RT : Runtime}.

End Persistence.


(** The provider fails from its third call on: two stages answered, the
    third was tried three times, the last two never ran, nothing was
    saved. *)
Lemma generation_failure_aborts_witness :
  exists w',
    ingest_telemetry (TG:=failing_from 2) (FR:=memory_repo) (RT:=demo_runtime)
      hot_sample demo_world
    = (inl (HTTPException 500 "Internal processing error; please try again later."), w')
    /\ w_calls w'
       = (map llm_call
            (firstn 2 (_build_tasks (RT:=demo_runtime)
                         (build_context (RT:=demo_runtime) hot_sample
                            (coolant_result hot_readings))))
          ++ replicate 3
               (llm_call
                  (stage 2 (_build_tasks (RT:=demo_runtime)
                              (build_context (RT:=demo_runtime) hot_sample
                                 (coolant_result hot_readings))))))%list
    /\ w_repo w' = []
    /\ w_seed w' = 0%N.
Proof.
  destruct (generation_failure_aborts
              (TG:=failing_from 2) (FR:=memory_repo) (RT:=demo_runtime)
              hot_sample (coolant_result hot_readings) demo_world
              (firstn 2 (_build_tasks (build_context hot_sample (coolant_result hot_readings))))
              (skipn 3 (_build_tasks (build_context hot_sample (coolant_result hot_readings))))
              (stage 2 (_build_tasks (build_context hot_sample (coolant_result hot_readings))))
              ["output of Data Monitoring Agent"; "output of Diagnosis Agent"]
              2%nat 5%nat
              (map llm_call
                 (firstn 2 (_build_tasks (build_context hot_sample
                                            (coolant_result hot_readings)))))
              3%nat (Exception "provider error")
              eq_refl eq_refl eq_refl eq_refl eq_refl eq_refl)
    as (_ & _ & _ & (w' & Hrun & Hcalls & Hrepo & Hseed)).
  exists w'. split; [exact Hrun|]. split; [exact Hcalls|]. split; assumption.
Defined.

(** C5 as stated fails: the capability raises during the third stage, on
    the provider's third call, yet the run raises nothing.  The stage is
    tried again and answers, the last two stages run, and the record is
    built and saved. *)
Lemma transient_failure_is_retried :
  fst (execute_task (TextGeneration:=scripted_llm (Some 2%nat))
         customer_agent
         (stage 2 (_build_tasks (RT:=demo_runtime)
                     (build_context (RT:=demo_runtime) hot_sample
                        (coolant_result hot_readings))))
         ["output of Data Monitoring Agent"; "output of Diagnosis Agent"] 2%nat)
  = inl (Exception "provider error")
  /\ ~ (exists e w',
          run_pipeline (TG:=scripted_llm (Some 2%nat)) (FR:=memory_repo) (RT:=demo_runtime)
            hot_sample (coolant_result hot_readings) demo_world = (inl e, w'))
  /\ fst (run_pipeline (TG:=scripted_llm (Some 2%nat)) (FR:=memory_repo) (RT:=demo_runtime)
            hot_sample (coolant_result hot_readings) demo_world)
     = inr {| context := build_context (RT:=demo_runtime) hot_sample
                           (coolant_result hot_readings);
              crew_output := String.concat newline canned_outputs;
              fault_id := "fault-0" |}
  /\ w_calls (snd (run_pipeline (TG:=scripted_llm (Some 2%nat)) (FR:=memory_repo)
                     (RT:=demo_runtime) hot_sample (coolant_result hot_readings)
                     demo_world))
     = (map llm_call
          (firstn 3 (_build_tasks (RT:=demo_runtime)
                       (build_context (RT:=demo_runtime) hot_sample
                          (coolant_result hot_readings))))
        ++ map llm_call
             (skipn 2 (_build_tasks (RT:=demo_runtime)
                         (build_context (RT:=demo_runtime) hot_sample
                            (coolant_result hot_readings))))
        ++ [CallSave hot_fault])%list
  /\ w_repo (snd (run_pipeline (TG:=scripted_llm (Some 2%nat)) (FR:=memory_repo)
                    (RT:=demo_runtime) hot_sample (coolant_result hot_readings)
                    demo_world))
     = [hot_fault]
  /\ returned (fst (ingest_telemetry (TG:=scripted_llm (Some 2%nat)) (FR:=memory_repo)
                      (RT:=demo_runtime) hot_sample demo_world)) = true.
Proof.
  split; [reflexivity|]. split; [|repeat split; vm_compute; reflexivity].
  intros (e & w' & Hrun).
  apply (f_equal (fun x => returned (fst x))) in Hrun.
  vm_compute in Hrun. discriminate Hrun.
Qed.

(** The nominal sample of the no-anomaly example. *)
Lemma no_rule_no_pipeline_witness :
  in_range quiet_sample = true
  /\ fst (detect (PModel quiet_sample) demo_world) = inr no_anomaly
  /\ exists w',
      ingest_telemetry (TG:=scripted_llm None) (FR:=memory_repo) (RT:=demo_runtime)
        quiet_sample demo_world
      = (inr {| Response.status := "ok"; Response.anomaly := false;
                Response.message := Some "No anomaly detected.";
                Response.fault_id := None; Response.summary := None;
                Response.crew_output := None |}, w')
      /\ w_calls w' = [] /\ w_repo w' = [].
Proof.
  split; [reflexivity|].
  destruct (no_rule_no_pipeline
              (TG:=scripted_llm None) (FR:=memory_repo) (RT:=demo_runtime)
              quiet_sample demo_world
              {| coolant_temp := 90; coolant_pressure := 1.0; battery := 13.0;
                 rpm := 1500; vibration := 10; odometer := 10000 |}
              eq_refl eq_refl eq_refl eq_refl eq_refl eq_refl)
    as [Hdet (w' & Hrun & Hcalls & _ & Hrepo & _)].
  split; [exact Hdet|].
  exists w'. split; [exact Hrun|]. split; assumption.
Defined.


(** The run the claim excludes: classification [no_anomaly], five stages
    run, the fallback record saved. *)
Lemma run_pipeline_does_not_check_flag_witness :
  is_anomaly no_anomaly = false
  /\ exists w',
      run_pipeline (TG:=scripted_llm None) (FR:=memory_repo) (RT:=demo_runtime)
        quiet_sample no_anomaly demo_world
      = (inr {| context := build_context (RT:=demo_runtime) quiet_sample no_anomaly;
                crew_output := String.concat newline canned_outputs;
                fault_id := "fault-0" |}, w')
      /\ w_calls w'
         = (map llm_call
              (_build_tasks (RT:=demo_runtime)
                 (build_context (RT:=demo_runtime) quiet_sample no_anomaly))
            ++ [CallSave quiet_fault])%list
      /\ w_repo w' = [quiet_fault].
Proof.
  split; [reflexivity|].
  destruct (run_pipeline_does_not_check_flag
              (TG:=scripted_llm None) (FR:=memory_repo) (RT:=demo_runtime)
              quiet_sample no_anomaly demo_world canned_outputs 5%nat
              (map llm_call (_build_tasks (build_context quiet_sample no_anomaly)))
              eq_refl eq_refl)
    as (_ & _ & Hsaved & _).
  destruct (Hsaved quiet_fault eq_refl) as [(w' & Hrun & Hcalls & Hrepo) _].
  exists w'. split; [exact Hrun|]. split; [exact Hcalls|exact Hrepo].
Defined.

(** C9 as stated fails: with is_anomaly false the run raises nothing; it
    makes the five stage calls and saves a record. *)
Lemma run_pipeline_has_no_assertion :
  is_anomaly no_anomaly = false
  /\ ~ (exists e w',
          run_pipeline (TG:=scripted_llm None) (FR:=memory_repo) (RT:=demo_runtime)
            quiet_sample no_anomaly demo_world = (inl e, w'))
  /\ w_calls (snd (run_pipeline (TG:=scripted_llm None) (FR:=memory_repo)
                     (RT:=demo_runtime) quiet_sample no_anomaly demo_world))
     = (map llm_call
          (_build_tasks (RT:=demo_runtime)
             (build_context (RT:=demo_runtime) quiet_sample no_anomaly))
        ++ [CallSave quiet_fault])%list
  /\ w_repo (snd (run_pipeline (TG:=scripted_llm None) (FR:=memory_repo)
                    (RT:=demo_runtime) quiet_sample no_anomaly demo_world))
     = [quiet_fault].
Proof.
  split; [reflexivity|]. split; [|split; reflexivity].
  intros (e & w' & Hrun).
  apply (f_equal (fun x => returned (fst x))) in Hrun.
  discriminate Hrun.
Qed.

(** * Further properties of the detector *)

(** [float(x or dflt)] succeeds on the values [float] converts, and on
    those alone. *)
Lemma py_float_or (v : value) (dflt : Q) :
  returned (py_float (py_or v (VFloat dflt))) = float_convertible v.
Proof.
  unfold py_or, truthy, py_float, float_convertible.
  destruct v as [|z|q]; [reflexivity| |destruct (Qeq_bool q 0); reflexivity].
  destruct (z =? 0)%Z eqn:Hz; cbn [negb].
  - apply Z.eqb_eq in Hz. subst z. reflexivity.
  - destruct (Z.abs z <? float_int_bound)%Z; reflexivity.
Qed.

Lemma py_int_or (v : value) (dflt : Z) :
  exists x, py_int (py_or v (VInt dflt)) = inr x.
Proof.
  unfold py_or, truthy.
  destruct v as [|z|q]; cbn; [eauto|destruct (z =? 0)%Z|destruct (Qeq_bool q 0)];
    cbn; eauto.
Qed.

(** The extraction succeeds exactly when none of the five conversions to
    a float overflows, whatever keys the dict lacks. *)
Lemma extract_fields_returns (d : gmap string value) :
  returned (extract_fields d)
  = forallb (fun k => float_convertible (dict_get d k)) float_keys.
Proof.
  unfold extract_fields, float_keys. cbn [forallb].
  rewrite <- (py_float_or (dict_get d "coolant_temp_c") 0.0).
  rewrite <- (py_float_or (dict_get d "coolant_pressure_bar") 0.0).
  rewrite <- (py_float_or (dict_get d "battery_voltage") 12.5).
  rewrite <- (py_float_or (dict_get d "vibration_level") 0.0).
  rewrite <- (py_float_or (dict_get d "odometer_km") 0.0).
  destruct (py_float (py_or (dict_get d "coolant_temp_c") _)); [reflexivity|].
  destruct (py_float (py_or (dict_get d "coolant_pressure_bar") _)); [reflexivity|].
  destruct (py_float (py_or (dict_get d "battery_voltage") _)); [reflexivity|].
  destruct (py_int_or (dict_get d "engine_rpm") 0) as [x4 ->].
  destruct (py_float (py_or (dict_get d "vibration_level") _)); [reflexivity|].
  destruct (py_float (py_or (dict_get d "odometer_km") _)); reflexivity.
Qed.

(** The classifications the rule set can produce. *)
Lemma first_match_shape (r : readings) :
  first_match r = no_anomaly
  \/ (is_anomaly (first_match r) = true
      /\ (exists c, component (first_match r) = Some c
            /\ In c ["coolant_pump"; "alternator"; "engine_misfire"; "sensor_failure"])
      /\ (exists s, severity (first_match r) = Some s
            /\ Fault.severity_literal s = true
            /\ predicted_failure_km (first_match r)
               = Some (odometer r + severity_increment s)%Q)
      /\ (exists text, reason (first_match r) = Some text)).
Proof.
  unfold first_match, rules; cbn [find fst snd].
  destruct (coolant_rule r).
  { right. cbn. split; [reflexivity|]. split; [eexists; split; [reflexivity|cbn; tauto]|].
    split; [|eauto].
    destruct (Qgeb (coolant_temp r) 135); [|destruct (Qgeb (coolant_temp r) 125)];
      eexists; (split; [reflexivity|]); split; reflexivity. }
  destruct (charging_rule r).
  { right. cbn. split; [reflexivity|]. split; [eexists; split; [reflexivity|cbn; tauto]|].
    split; [|eauto].
    destruct (Qleb (battery r) 10.5);
      eexists; (split; [reflexivity|]); split; reflexivity. }
  destruct (high_vibration_rule r).
  { right. cbn. split; [reflexivity|]. split; [eexists; split; [reflexivity|cbn; tauto]|].
    split; [|eauto].
    destruct (Qltb (vibration r) 95);
      eexists; (split; [reflexivity|]); split; reflexivity. }
  destruct (mild_vibration_rule r).
  { right. cbn. split; [reflexivity|]. split; [eexists; split; [reflexivity|cbn; tauto]|].
    split; [|eauto].
    eexists; (split; [reflexivity|]); split; reflexivity. }
  now left.
Qed.


Section DetectorExtras.
Context {Llm Repo : Type}.
Implicit Types (w : world Llm Repo) (p : TelemetryPayload) (r : readings).

(** Every call of [detect] only writes to the log; it raises exactly when
    a conversion overflows, and otherwise ends in one of two ways. *)
Lemma detect_cases (payload : payload_arg) w :
  exists res l,
    detect payload w = (res, add_log w l)
    /\ returned res = payload_convertible payload
    /\ forall a, res = inr a -> a = no_anomaly \/ exists r, a = first_match r.
Proof.
  destruct payload as [d|p|].
  - pose proof (extract_fields_returns d) as Hret.
    unfold detect, normalise. run_monad. cbn [payload_convertible].
    destruct (extract_fields d) as [e|r]; cbn [returned] in Hret.
    + eexists _, _.
      split; [unfold add_log; cbn; rewrite <- !app_assoc; reflexivity|].
      split; [exact Hret|discriminate].
    + match goal with |- context [rule_set r ?w'] =>
        destruct (rule_set_first_match r w') as [l ->] end.
      eexists _, _.
      split; [unfold add_log; cbn; rewrite <- !app_assoc; reflexivity|].
      split; [exact Hret|intros a [= <-]; right; eauto].
  - destruct (extract_fields_to_dict p) as (r & Hr & _).
    destruct (detect_model p w r Hr) as [l ->].
    eexists _, _. split; [reflexivity|]. split; [reflexivity|].
    intros a [= <-]. right; eauto.
  - unfold detect, normalise. run_monad.
    eexists _, _.
    split; [unfold add_log; cbn; rewrite <- !app_assoc; reflexivity|].
    split; [reflexivity|intros a [= <-]; now left].
Qed.


(** X2.  A result of [detect] is well formed: either is_anomaly is false
    and component, severity, reason and predicted_failure_km are all
    absent, or is_anomaly is true and all four are present, the component
    being one of coolant_pump, alternator, engine_misfire, sensor_failure
    and the severity one of the four literals a FaultRecord accepts. *)
Theorem detect_result_well_formed (payload : payload_arg) w res :
  fst (detect payload w) = inr res ->
  (is_anomaly res = false /\ component res = None /\ severity res = None
   /\ reason res = None /\ predicted_failure_km res = None)
  \/ (is_anomaly res = true
      /\ (exists c, component res = Some c
            /\ In c ["coolant_pump"; "alternator"; "engine_misfire"; "sensor_failure"])
      /\ (exists s, severity res = Some s
            /\ In s ["low"; "medium"; "high"; "critical"]
            /\ Fault.severity_literal s = true)
      /\ (exists text, reason res = Some text)
      /\ (exists km, predicted_failure_km res = Some km)).
Proof.
  destruct (detect_cases payload w) as (res' & l & -> & _ & Hres). cbn [fst].
  intros ->. destruct (Hres res eq_refl) as [->|[r ->]]; [left; now cbn|].
  destruct (first_match_shape r) as [->|(Ha & Hc & (s & Hs & Hlit & Hkm) & Ht)];
    [left; now cbn|].
  right. split; [exact Ha|]. split; [exact Hc|]. split; [|split; [exact Ht|eauto]].
  exists s. split; [exact Hs|]. split; [|exact Hlit].
  unfold Fault.severity_literal in Hlit. apply bool_decide_eq_true in Hlit.
  now apply list_elem_of_In.
Qed.
End DetectorExtras.

(** The four conditions, read on the sample itself. *)
Lemma rule_conditions_of_sample (p : TelemetryPayload) (r : readings) :
  extract_fields (to_dict p) = inr r ->
  (coolant_rule r = true
   <-> (120 <= coolant_temp_c p
        \/ (110 <= coolant_temp_c p /\ 2.5 <= coolant_pressure_bar p))%Q)
  /\ (charging_rule r = true
      <-> (~ battery_voltage p == 0 /\ battery_voltage p <= 11.3)%Q)
  /\ (high_vibration_rule r = true
      <-> (80 <= vibration_level p)%Q /\ (2500 <= engine_rpm p)%Z)
  /\ (mild_vibration_rule r = true
      <-> (60 <= vibration_level p)%Q /\ (engine_rpm p < 2500)%Z).
Proof.
  intros Hr.
  destruct (extract_fields_to_dict p) as (r' & Hr' & Ht & Hp & Hb & Hrpm & Hv & _).
  rewrite Hr in Hr'. injection Hr' as <-.
  unfold coolant_rule, charging_rule, high_vibration_rule, mild_vibration_rule.
  rewrite Hb, Hrpm.
  rewrite orb_true_iff, !andb_true_iff, !Qgeb_le, Qleb_le, Z.geb_le, Z.ltb_lt.
  rewrite Ht, Hp, Hv.
  split; [reflexivity|]. split; [|split; reflexivity].
  destruct (Qeq_bool (battery_voltage p) 0) eqn:Hz; to_prop.
  - split; [lra|tauto].
  - tauto.
Qed.

(** Which branch of the rule set is taken. *)
Lemma first_match_cases (r : readings) :
  (coolant_rule r = true /\ first_match r = coolant_result r)
  \/ (coolant_rule r = false /\ charging_rule r = true
      /\ first_match r = charging_result r)
  \/ (coolant_rule r = false /\ charging_rule r = false
      /\ high_vibration_rule r = true /\ first_match r = high_vibration_result r)
  \/ (coolant_rule r = false /\ charging_rule r = false
      /\ high_vibration_rule r = false /\ mild_vibration_rule r = true
      /\ first_match r = mild_vibration_result r)
  \/ (coolant_rule r = false /\ charging_rule r = false
      /\ high_vibration_rule r = false /\ mild_vibration_rule r = false
      /\ first_match r = no_anomaly).
Proof.
  unfold first_match, rules; cbn [find fst snd].
  destruct (coolant_rule r); [tauto|].
  destruct (charging_rule r); [tauto|].
  destruct (high_vibration_rule r); [tauto|].
  destruct (mild_vibration_rule r); tauto.
Qed.

Section Precedence.
Context {Llm Repo : Type}.
Implicit Types (w : world Llm Repo) (p : TelemetryPayload) (r : readings).

(** What does hold of the precedence: when the supplied battery voltage is
    not zero, the component is that of the earliest rule, in the order
    coolant, charging, high vibration, mild vibration, whose condition
    holds on the sample. *)
Lemma precedence_nonzero_voltage p w :
  ~ (battery_voltage p == 0)%Q ->
  exists res,
    fst (detect (PModel p) w) = inr res
    /\ ((120 <= coolant_temp_c p
         \/ (110 <= coolant_temp_c p /\ 2.5 <= coolant_pressure_bar p))%Q ->
        component res = Some "coolant_pump")
    /\ (~ (120 <= coolant_temp_c p
           \/ (110 <= coolant_temp_c p /\ 2.5 <= coolant_pressure_bar p))%Q ->
        ((battery_voltage p <= 11.3)%Q -> component res = Some "alternator")
        /\ (~ (battery_voltage p <= 11.3)%Q ->
            ((80 <= vibration_level p)%Q /\ (2500 <= engine_rpm p)%Z ->
             component res = Some "engine_misfire")
            /\ (~ ((80 <= vibration_level p)%Q /\ (2500 <= engine_rpm p)%Z) ->
                ((60 <= vibration_level p)%Q /\ (engine_rpm p < 2500)%Z ->
                 component res = Some "sensor_failure")
                /\ (~ ((60 <= vibration_level p)%Q /\ (engine_rpm p < 2500)%Z) ->
                    res = no_anomaly)))).
Proof.
  intros Hnz.
  destruct (extract_fields_to_dict p) as (r & Hr & _).
  destruct (rule_conditions_of_sample p r Hr) as (Hc & Hb & Hh & Hm).
  destruct (detect_model p w r Hr) as [l ->]. cbn [fst].
  exists (first_match r). split; [reflexivity|].
  destruct (first_match_cases r)
    as [(C & ->)|[(C & B & ->)|[(C & B & H & ->)
       |[(C & B & H & M & ->)|(C & B & H & M & ->)]]]].
  - split; [reflexivity|]. intros N. apply Hc in C. contradiction.
  - split; [intros Y; apply Hc in Y; congruence|]. intros _.
    split; [reflexivity|]. intros N. apply Hb in B. tauto.
  - split; [intros Y; apply Hc in Y; congruence|]. intros _.
    split; [intros Y; assert (charging_rule r = true) by (apply Hb; tauto); congruence|].
    intros _. split; [reflexivity|]. intros N. apply Hh in H. contradiction.
  - split; [intros Y; apply Hc in Y; congruence|]. intros _.
    split; [intros Y; assert (charging_rule r = true) by (apply Hb; tauto); congruence|].
    intros _. split; [intros Y; apply Hh in Y; congruence|]. intros _.
    split; [reflexivity|]. intros N. apply Hm in M. contradiction.
  - split; [intros Y; apply Hc in Y; congruence|]. intros _.
    split; [intros Y; assert (charging_rule r = true) by (apply Hb; tauto); congruence|].
    intros _. split; [intros Y; apply Hh in Y; congruence|]. intros _.
    split; [intros Y; apply Hm in Y; congruence|]. reflexivity.
Qed.
End Precedence.

(** C1.  The failing input: a sample in range whose coolant readings are
    nominal, whose battery voltage of 0.0 V satisfies the charging
    condition and whose vibration of 90 at 3000 rpm satisfies the
    high-vibration condition.  The earliest of the two is the charging
    rule, yet [detect], reading the voltage as 12.5, answers with the
    high-vibration rule: engine_misfire at medium, not alternator. *)
Theorem zero_voltage_loses_precedence :
  in_range (sample 90 1.0 3000 90 0.0 10000) = true
  /\ ~ (120 <= coolant_temp_c (sample 90 1.0 3000 90 0.0 10000)
        \/ (110 <= coolant_temp_c (sample 90 1.0 3000 90 0.0 10000)
            /\ 2.5 <= coolant_pressure_bar (sample 90 1.0 3000 90 0.0 10000)))%Q
  /\ (0 <= battery_voltage (sample 90 1.0 3000 90 0.0 10000) <= 11.3)%Q
  /\ ((80 <= vibration_level (sample 90 1.0 3000 90 0.0 10000))%Q
      /\ (2500 <= engine_rpm (sample 90 1.0 3000 90 0.0 10000))%Z)
  /\ exists res,
       fst (detect (PModel (sample 90 1.0 3000 90 0.0 10000)) demo_world) = inr res
       /\ is_anomaly res = true
       /\ component res = Some "engine_misfire"
       /\ severity res = Some "medium"
       /\ component res <> Some "alternator".
Proof.
  split; [reflexivity|]. split; [cbn; lra|]. split; [cbn; lra|].
  split; [split; cbn; [lra|lia]|].
  eexists. split; [reflexivity|]. repeat split. discriminate.
Qed.

Section RuleTable.
Context {Llm Repo : Type}.
Implicit Types (w : world Llm Repo) (p : TelemetryPayload) (r : readings).

(** X3.  The charging rule as coded: the result names the alternator
    exactly when the coolant rule is silent and the supplied battery
    voltage is not zero and at most 11.3; the severity is then high up to
    10.5 and medium above. *)
Theorem charging_rule_as_coded p w :
  exists res,
    fst (detect (PModel p) w) = inr res
    /\ (component res = Some "alternator"
        <-> (~ (120 <= coolant_temp_c p
                \/ (110 <= coolant_temp_c p /\ 2.5 <= coolant_pressure_bar p))
             /\ ~ battery_voltage p == 0 /\ battery_voltage p <= 11.3)%Q)
    /\ (component res = Some "alternator" ->
        is_anomaly res = true
        /\ ((battery_voltage p <= 10.5)%Q -> severity res = Some "high")
        /\ ((10.5 < battery_voltage p)%Q -> severity res = Some "medium")).
Proof.
  destruct (extract_fields_to_dict p) as (r & Hr & _ & _ & Hb & _).
  destruct (rule_conditions_of_sample p r Hr) as (Hc & Hch & _).
  destruct (detect_model p w r Hr) as [l ->]. cbn [fst].
  exists (first_match r). split; [reflexivity|].
  destruct (first_match_cases r)
    as [(H1 & ->)|[(H1 & H2 & ->)|[(H1 & H2 & H3 & ->)
       |[(H1 & H2 & H3 & H4 & ->)|(H1 & H2 & H3 & H4 & ->)]]]].
  - split; [split; [discriminate|]|discriminate]. intros [Hn _]. now apply Hc in H1.
  - apply Hch in H2. destruct H2 as [Hnz Hle].
    apply Qeq_bool_false in Hnz. rewrite Hnz in Hb.
    assert (Hnc : ~ (120 <= coolant_temp_c p
                     \/ (110 <= coolant_temp_c p /\ 2.5 <= coolant_pressure_bar p))%Q).
    { intros Hx. apply Hc in Hx. congruence. }
    apply Qeq_bool_false in Hnz.
    split; [cbn; tauto|]. intros _. cbn. rewrite Hb.
    destruct (Qleb (battery_voltage p) 10.5) eqn:H105; to_prop;
      repeat split; intros; try reflexivity; lra.
  - split; [split; [discriminate|]|discriminate].
    intros (_ & Hnz & Hle). assert (charging_rule r = true) by now apply Hch. congruence.
  - split; [split; [discriminate|]|discriminate].
    intros (_ & Hnz & Hle). assert (charging_rule r = true) by now apply Hch. congruence.
  - split; [split; [discriminate|]|discriminate].
    intros (_ & Hnz & Hle). assert (charging_rule r = true) by now apply Hch. congruence.
Qed.

(** X4.  The high-vibration rule: the result names engine_misfire exactly
    when the coolant rule is silent, the battery voltage is zero or above
    11.3, vibration_level >= 80 and engine_rpm >= 2500; the severity is
    then high from a vibration of 95 on and medium below. *)
Theorem high_vibration_rule_as_coded p w :
  exists res,
    fst (detect (PModel p) w) = inr res
    /\ (component res = Some "engine_misfire"
        <-> (~ (120 <= coolant_temp_c p
                \/ (110 <= coolant_temp_c p /\ 2.5 <= coolant_pressure_bar p))
             /\ (battery_voltage p == 0 \/ 11.3 < battery_voltage p)
             /\ 80 <= vibration_level p)%Q
            /\ (2500 <= engine_rpm p)%Z)
    /\ (component res = Some "engine_misfire" ->
        is_anomaly res = true
        /\ ((95 <= vibration_level p)%Q -> severity res = Some "high")
        /\ ((vibration_level p < 95)%Q -> severity res = Some "medium")).
Proof.
  destruct (extract_fields_to_dict p) as (r & Hr & _ & _ & _ & _ & Hv & _).
  destruct (rule_conditions_of_sample p r Hr) as (Hc & Hch & Hhi & _).
  destruct (detect_model p w r Hr) as [l ->]. cbn [fst].
  exists (first_match r). split; [reflexivity|].
  assert (Hsilent : charging_rule r = false
                    <-> (battery_voltage p == 0 \/ 11.3 < battery_voltage p)%Q).
  { rewrite <- not_true_iff_false, Hch.
    destruct (Qeq_dec (battery_voltage p) 0); split; intros; try tauto; lra. }
  destruct (first_match_cases r)
    as [(H1 & ->)|[(H1 & H2 & ->)|[(H1 & H2 & H3 & ->)
       |[(H1 & H2 & H3 & H4 & ->)|(H1 & H2 & H3 & H4 & ->)]]]].
  - split; [split; [discriminate|]|discriminate]. intros [[Hn _] _]. now apply Hc in H1.
  - split; [split; [discriminate|]|discriminate].
    intros [(_ & Hs & _) _]. apply Hsilent in Hs. congruence.
  - apply Hhi in H3. destruct H3 as [H80 Hrpm]. apply Hsilent in H2.
    assert (Hnc : ~ (120 <= coolant_temp_c p
                     \/ (110 <= coolant_temp_c p /\ 2.5 <= coolant_pressure_bar p))%Q).
    { intros Hx. apply Hc in Hx. congruence. }
    split; [cbn; tauto|]. intros _. cbn.
    destruct (Qltb (vibration r) 95) eqn:H95; to_prop;
      repeat split; intros; try reflexivity; lra.
  - split; [split; [discriminate|]|discriminate].
    intros [(_ & _ & H80) Hrpm].
    assert (high_vibration_rule r = true) by now apply Hhi. congruence.
  - split; [split; [discriminate|]|discriminate].
    intros [(_ & _ & H80) Hrpm].
    assert (high_vibration_rule r = true) by now apply Hhi. congruence.
Qed.

(** X5.  The mild-vibration rule: the result names sensor_failure exactly
    when the coolant rule is silent, the battery voltage is zero or above
    11.3, vibration_level >= 60 and engine_rpm < 2500; the severity is then
    low and the predicted distance the odometer reading plus 15000. *)
Theorem mild_vibration_rule_as_coded p w :
  exists res,
    fst (detect (PModel p) w) = inr res
    /\ (component res = Some "sensor_failure"
        <-> (~ (120 <= coolant_temp_c p
                \/ (110 <= coolant_temp_c p /\ 2.5 <= coolant_pressure_bar p))
             /\ (battery_voltage p == 0 \/ 11.3 < battery_voltage p)
             /\ 60 <= vibration_level p)%Q
            /\ (engine_rpm p < 2500)%Z)
    /\ (component res = Some "sensor_failure" ->
        is_anomaly res = true
        /\ severity res = Some "low"
        /\ exists km, predicted_failure_km res = Some km
                      /\ (km == odometer_km p + 15000)%Q).
Proof.
  destruct (extract_fields_to_dict p) as (r & Hr & _ & _ & _ & _ & Hv & Ho).
  destruct (rule_conditions_of_sample p r Hr) as (Hc & Hch & Hhi & Hmi).
  destruct (detect_model p w r Hr) as [l ->]. cbn [fst].
  exists (first_match r). split; [reflexivity|].
  assert (Hsilent : charging_rule r = false
                    <-> (battery_voltage p == 0 \/ 11.3 < battery_voltage p)%Q).
  { rewrite <- not_true_iff_false, Hch.
    destruct (Qeq_dec (battery_voltage p) 0); split; intros; try tauto; lra. }
  destruct (first_match_cases r)
    as [(H1 & ->)|[(H1 & H2 & ->)|[(H1 & H2 & H3 & ->)
       |[(H1 & H2 & H3 & H4 & ->)|(H1 & H2 & H3 & H4 & ->)]]]].
  - split; [split; [discriminate|]|discriminate]. intros [[Hn _] _]. now apply Hc in H1.
  - split; [split; [discriminate|]|discriminate].
    intros [(_ & Hs & _) _]. apply Hsilent in Hs. congruence.
  - split; [split; [discriminate|]|discriminate].
    intros [(_ & _ & H60) Hrpm]. apply Hhi in H3. lia.
  - apply Hmi in H4. destruct H4 as [H60 Hrpm]. apply Hsilent in H2.
    assert (Hnc : ~ (120 <= coolant_temp_c p
                     \/ (110 <= coolant_temp_c p /\ 2.5 <= coolant_pressure_bar p))%Q).
    { intros Hx. apply Hc in Hx. congruence. }
    split; [cbn; tauto|]. intros _. cbn.
    split; [reflexivity|]. split; [reflexivity|].
    eexists. split; [reflexivity|].
    rewrite estimate_failure_km_increment, Ho. reflexivity.
  - split; [split; [discriminate|]|discriminate].
    intros [(_ & _ & H60) Hrpm].
    assert (mild_vibration_rule r = true) by now apply Hmi. congruence.
Qed.
End RuleTable.

(** The bounds a validated payload satisfies. *)
Lemma in_range_bounds (p : TelemetryPayload) :
  in_range p = true ->
  (-40 <= coolant_temp_c p <= 200)%Q
  /\ (0 <= coolant_pressure_bar p <= 5)%Q
  /\ (0 <= engine_rpm p <= 9000)%Z
  /\ (0 <= vibration_level p <= 100)%Q
  /\ (0 <= battery_voltage p <= 24)%Q
  /\ (0 <= odometer_km p)%Q.
Proof.
  unfold in_range. intros H.
  repeat match goal with
         | H : _ && _ = true |- _ => apply andb_true_iff in H; destruct H
         end.
  to_prop. repeat split; try assumption; lia.
Qed.

Lemma severity_increment_bounds (s : string) :
  Fault.severity_literal s = true ->
  (200 <= severity_increment s <= 15000)%Q.
Proof.
  unfold Fault.severity_literal. intros H. apply bool_decide_eq_true in H.
  apply list_elem_of_In in H. cbn in H.
  destruct H as [<-|[<-|[<-|[<-|[]]]]]; cbn; lra.
Qed.

Section DetectorBounds.
Context {Llm Repo : Type}.
Implicit Types (w : world Llm Repo) (p : TelemetryPayload) (r : readings).

(** X6.  A dict in which coolant_temp_c, battery_voltage and
    vibration_level are each missing, [None] or zero, and whose
    coolant_pressure_bar and odometer_km convert to a float, is classified
    as no anomaly, whatever those two and engine_rpm are. *)
Theorem falsy_entries_give_no_anomaly (d : gmap string value) w :
  truthy (dict_get d "coolant_temp_c") = false ->
  truthy (dict_get d "battery_voltage") = false ->
  truthy (dict_get d "vibration_level") = false ->
  float_convertible (dict_get d "coolant_pressure_bar") = true ->
  float_convertible (dict_get d "odometer_km") = true ->
  fst (detect (PDict d) w) = inr no_anomaly.
Proof.
  intros Ht Hb Hv Hp Ho.
  rewrite <- (py_float_or _ 0.0) in Hp. rewrite <- (py_float_or _ 0.0) in Ho.
  assert (Hfields : exists r, extract_fields d = inr r
            /\ coolant_temp r = 0.0%Q /\ battery r = 12.5%Q /\ vibration r = 0.0%Q).
  { unfold extract_fields.
    destruct (py_float (py_or (dict_get d "coolant_pressure_bar") _)) as [e|x2];
      [discriminate Hp|].
    destruct (py_float (py_or (dict_get d "odometer_km") _)) as [e|x6];
      [discriminate Ho|].
    destruct (py_int_or (dict_get d "engine_rpm") 0) as [x4 ->].
    unfold py_or. rewrite Ht, Hb, Hv. cbn. eauto. }
  destruct Hfields as (r & Hr & H1 & H2 & H3).
  unfold detect, normalise. run_monad. rewrite Hr.
  match goal with |- context [rule_set r ?w'] =>
    destruct (rule_set_first_match r w') as [l ->] end.
  cbn [fst]. f_equal.
  unfold first_match, rules; cbn [find fst snd].
  unfold coolant_rule, charging_rule, high_vibration_rule, mild_vibration_rule.
  now rewrite H1, H2, H3.
Qed.

(** X7.  On an in-range sample a reported anomaly predicts a distance of
    at least 200 km that is not below the odometer reading; in particular
    it is not zero. *)
Theorem predicted_distance_bounds p w :
  in_range p = true ->
  exists res,
    fst (detect (PModel p) w) = inr res
    /\ (is_anomaly res = true ->
        exists km,
          predicted_failure_km res = Some km
          /\ (200 <= km)%Q
          /\ (odometer_km p <= km)%Q
          /\ ~ (km == 0)%Q).
Proof.
  intros Hin. apply in_range_bounds in Hin.
  destruct Hin as (_ & _ & _ & _ & _ & Hodo).
  destruct (extract_fields_to_dict p) as (r & Hr & _ & _ & _ & _ & _ & Ho).
  destruct (detect_model p w r Hr) as [l ->]. cbn [fst].
  exists (first_match r). split; [reflexivity|].
  destruct (first_match_shape r) as [->|(_ & _ & (s & _ & Hlit & ->) & _)];
    [discriminate|].
  intros _. eexists. split; [reflexivity|].
  apply severity_increment_bounds in Hlit. rewrite Ho. repeat split; lra.
Qed.

(** X8.  Within the coolant rule a hotter engine is never rated less
    urgent: of two samples that both fire the rule, the hotter one's
    severity carries an increment no larger, and at the same odometer
    reading its predicted distance is no later. *)
Theorem hotter_is_never_later p1 p2 w :
  (coolant_temp_c p1 <= coolant_temp_c p2)%Q ->
  exists res1 res2,
    fst (detect (PModel p1) w) = inr res1
    /\ fst (detect (PModel p2) w) = inr res2
    /\ (component res1 = Some "coolant_pump" ->
        component res2 = Some "coolant_pump" ->
        exists s1 s2 km1 km2,
          severity res1 = Some s1
          /\ severity res2 = Some s2
          /\ (severity_increment s2 <= severity_increment s1)%Q
          /\ predicted_failure_km res1 = Some km1
          /\ predicted_failure_km res2 = Some km2
          /\ ((odometer_km p1 == odometer_km p2)%Q -> (km2 <= km1)%Q)).
Proof.
  intros Hle.
  destruct (extract_fields_to_dict p1) as (r1 & Hr1 & Ht1 & _ & _ & _ & _ & Ho1).
  destruct (extract_fields_to_dict p2) as (r2 & Hr2 & Ht2 & _ & _ & _ & _ & Ho2).
  destruct (detect_model p1 w r1 Hr1) as [l1 ->].
  destruct (detect_model p2 w r2 Hr2) as [l2 ->]. cbn [fst].
  exists (first_match r1), (first_match r2). split; [reflexivity|]. split; [reflexivity|].
  destruct (first_match_cases r1)
    as [(_ & ->)|[(_ & _ & ->)|[(_ & _ & _ & ->)
       |[(_ & _ & _ & _ & ->)|(_ & _ & _ & _ & ->)]]]]; try discriminate.
  destruct (first_match_cases r2)
    as [(_ & ->)|[(_ & _ & ->)|[(_ & _ & _ & ->)
       |[(_ & _ & _ & _ & ->)|(_ & _ & _ & _ & ->)]]]]; try discriminate.
  intros _ _. cbn [coolant_result severity predicted_failure_km].
  eexists _, _, _, _. split; [reflexivity|]. split; [reflexivity|].
  split; [|split; [reflexivity|split; [reflexivity|]]].
  - destruct (Qgeb (coolant_temp r1) 135) eqn:A1;
      [|destruct (Qgeb (coolant_temp r1) 125) eqn:B1];
      (destruct (Qgeb (coolant_temp r2) 135) eqn:A2;
        [|destruct (Qgeb (coolant_temp r2) 125) eqn:B2]);
      to_prop; cbn; lra.
  - intros Hodo. rewrite !estimate_failure_km_increment, Ho1, Ho2.
    destruct (Qgeb (coolant_temp r1) 135) eqn:A1;
      [|destruct (Qgeb (coolant_temp r1) 125) eqn:B1];
      (destruct (Qgeb (coolant_temp r2) 135) eqn:A2;
        [|destruct (Qgeb (coolant_temp r2) 125) eqn:B2]);
      to_prop; cbn; lra.
Qed.
End DetectorBounds.

(** * Further properties of the pipeline *)

Lemma append_assoc_str (a b c : string) : (a +:+ b) +:+ c = a +:+ (b +:+ c).
Proof. induction a as [|x a IH]; [reflexivity|]. change (String x ((a +:+ b) +:+ c) = String x (a +:+ (b +:+ c))). now rewrite IH. Qed.

Lemma ends_with_cons (a x s : string) :
  (exists prompt, x = prompt +:+ s) -> exists prompt, a +:+ x = prompt +:+ s.
Proof. intros [q ->]. exists (a +:+ q). symmetry. apply append_assoc_str. Qed.

Lemma ends_with_self (s : string) : exists prompt, s = prompt +:+ s.
Proof. now exists "". Qed.

Section TaskFacts.
Context {RT : Runtime}.

(** X9.  The crew is always the same five stages, in the order data
    monitoring, diagnosis, customer engagement, scheduling, OEM insights,
    and the prompt of every stage ends with the same rendering of the one
    context. *)
Theorem build_tasks_shape (ctx : gmap string field) :
  map agent (_build_tasks ctx)
  = [data_agent; diagnosis_agent; customer_agent; scheduling_agent; insight_agent]
  /\ Forall (fun t => exists prompt,
                description t = prompt +:+ ("Context: " +:+ str_context ctx))
       (_build_tasks ctx).
Proof.
  split; [reflexivity|].
  unfold _build_tasks.
  repeat (apply List.Forall_cons;
          [cbn [description];
           repeat first [apply ends_with_self | apply ends_with_cons]|]).
  apply List.Forall_nil.
Qed.

(** X10.  The context always carries the same twelve keys, the optional
    classification fields included (as [None] when absent), and under the
    telemetry keys the sample's own values. *)
Theorem build_context_keys (p : TelemetryPayload) (a : AnomalyResult) :
  dom (build_context p a)
  = list_to_set
      ["vin"; "timestamp"; "coolant_temp_c"; "coolant_pressure_bar"; "engine_rpm";
       "vibration_level"; "battery_voltage"; "odometer_km"; "anomaly_reason";
       "predicted_failure_km"; "component"; "severity"]
  /\ build_context p a !! "vin" = Some (FStr (vin p))
  /\ build_context p a !! "odometer_km" = Some (FVal (VFloat (odometer_km p)))
  /\ build_context p a !! "predicted_failure_km" = Some (opt_float (predicted_failure_km a))
  /\ build_context p a !! "component" = Some (opt_str (component a))
  /\ build_context p a !! "severity" = Some (opt_str (severity a))
  /\ build_context p a !! "anomaly_reason" = Some (opt_str (reason a)).
Proof.
  unfold build_context. split.
  - rewrite !dom_insert_L, dom_empty_L. cbn [list_to_set]. set_solver.
  - repeat split; now simplify_map_eq.
Qed.
End TaskFacts.

Section PipelineExtras.
Context {Llm Repo : Type}.
Context {TG : TextGeneration Llm} {FR : FaultRepository Repo} {RT : Runtime}.
Implicit Types (w : world Llm Repo) (p : TelemetryPayload) (a : AnomalyResult).




End PipelineExtras.

(** * The language-model client *)

Section BuildLlmFacts.
Context {Llm Repo : Type}.
Implicit Types (settings : Settings) (st : @process Llm Repo).

(** X14.  [_build_llm] returns a client exactly when the configured
    provider (anthropic when the setting is empty), compared without
    regard to case, is anthropic, openai or groq and the API key of that
    provider is set and not empty. *)
Theorem build_llm_succeeds_iff settings st :
  returned (fst (_build_llm settings st)) = true
  <-> (lower (str_or (Some (llm_provider settings)) "anthropic") = "anthropic"
       /\ key_missing (anthropic_api_key settings) = false)
      \/ (lower (str_or (Some (llm_provider settings)) "anthropic") = "openai"
          /\ key_missing (openai_api_key settings) = false)
      \/ (lower (str_or (Some (llm_provider settings)) "anthropic") = "groq"
          /\ key_missing (groq_api_key settings) = false).
Proof.
  unfold _build_llm.
  destruct (String.eqb_spec (lower (str_or (Some (llm_provider settings)) "anthropic"))
              "anthropic") as [Ha|Ha].
  { rewrite Ha. destruct (key_missing (anthropic_api_key settings)); cbn;
      split; intros H; try discriminate; try tauto;
      destruct H as [[_ H]|[[H _]|[H _]]]; discriminate. }
  destruct (String.eqb_spec (lower (str_or (Some (llm_provider settings)) "anthropic"))
              "openai") as [Ho|Ho].
  { rewrite Ho. destruct (key_missing (openai_api_key settings)); cbn;
      split; intros H; try discriminate; try tauto;
      destruct H as [[H _]|[[_ H]|[H _]]]; discriminate. }
  destruct (String.eqb_spec (lower (str_or (Some (llm_provider settings)) "anthropic"))
              "groq") as [Hg|Hg].
  { rewrite Hg. destruct (key_missing (groq_api_key settings)); cbn;
      split; intros H; try discriminate; try tauto;
      destruct H as [[H _]|[[H _]|[_ H]]]; discriminate. }
  cbn. split; [discriminate|]. tauto.
Qed.

(** A raise of [_build_llm] comes before any effect. *)
Lemma build_llm_raise_state settings st (e : exn) st' :
  _build_llm settings st = (inl e, st') -> st' = st.
Proof.
  unfold _build_llm.
  destruct (String.eqb _ "anthropic").
  { destruct (key_missing (anthropic_api_key settings)); cbn; now intros [= <- <-]. }
  destruct (String.eqb _ "openai").
  { destruct (key_missing (openai_api_key settings)); cbn; [now intros [= <- <-]|].
    unfold bind, setenv, in_world, ret; cbn. discriminate. }
  destruct (String.eqb _ "groq").
  { destruct (key_missing (groq_api_key settings)); cbn; [now intros [= <- <-]|].
    unfold bind, setenv, in_world, ret; cbn. discriminate. }
  cbn. now intros [= <- <-].
Qed.

(** X15.  When [_build_llm] raises, it raises a RuntimeError and has
    touched nothing: no log record, no environment variable. *)
Theorem build_llm_failure_is_clean settings st (e : exn) st' :
  _build_llm settings st = (inl e, st') ->
  st' = st /\ exists text, e = RuntimeError text.
Proof.
  unfold _build_llm.
  destruct (String.eqb _ "anthropic").
  { destruct (key_missing (anthropic_api_key settings)); cbn;
      intros [= <- <-]; (split; [reflexivity|eexists; reflexivity]). }
  destruct (String.eqb _ "openai").
  { destruct (key_missing (openai_api_key settings)); cbn;
      [intros [= <- <-]; (split; [reflexivity|eexists; reflexivity])|].
    unfold bind, setenv, in_world, ret; cbn. discriminate. }
  destruct (String.eqb _ "groq").
  { destruct (key_missing (groq_api_key settings)); cbn;
      [intros [= <- <-]; (split; [reflexivity|eexists; reflexivity])|].
    unfold bind, setenv, in_world, ret; cbn. discriminate. }
  cbn. intros [= <- <-]; (split; [reflexivity|eexists; reflexivity]).
Qed.

(** X16.  A client that [_build_llm] returns has a model name that is not
    empty and temperature 0.2.  An Anthropic client carries the configured
    key and 512 output tokens, and the environment is left as it was; an
    OpenAI or Groq client has 2048 output tokens, and the one change to
    the environment is the provider's key variable, set to the configured
    key. *)
Theorem build_llm_client settings st (c : Client.t) st' :
  _build_llm settings st = (inr c, st') ->
  Client.model c <> ""
  /\ Client.temperature c = 0.2%Q
  /\ w_repo (fst st') = w_repo (fst st)
  /\ w_llm (fst st') = w_llm (fst st)
  /\ ((Client.cls c = ChatAnthropic
       /\ Client.anthropic_api_key c = anthropic_api_key settings
       /\ key_missing (anthropic_api_key settings) = false
       /\ Client.max_tokens c = 512%Z
       /\ st' = st)
      \/ (Client.cls c = LLM
          /\ Client.max_tokens c = 2048%Z
          /\ exists name key,
               snd st' = <[name := key]> (snd st)
               /\ key <> ""
               /\ ((Client.provider c = Some "openai" /\ name = "OPENAI_API_KEY"
                    /\ openai_api_key settings = Some key)
                   \/ (Client.provider c = Some "groq" /\ name = "GROQ_API_KEY"
                       /\ groq_api_key settings = Some key)))).
Proof.
  assert (Hmodel : forall dflt, dflt <> "" ->
            str_or (Some (llm_model settings)) dflt <> "").
  { intros dflt Hd. unfold str_or.
    destruct (String.eqb_spec (llm_model settings) ""); congruence. }
  unfold _build_llm.
  destruct (String.eqb _ "anthropic").
  { destruct (key_missing (anthropic_api_key settings)) eqn:Hk; cbn;
      [discriminate|]. intros [= <- <-]. cbn.
    split; [now apply Hmodel|]. do 3 (split; [reflexivity|]).
    left. repeat split; auto. }
  destruct (String.eqb _ "openai").
  { destruct (openai_api_key settings) as [key|] eqn:Hk; cbn; [|discriminate].
    destruct (String.eqb_spec key "") as [->|Hne]; [discriminate|].
    unfold bind, setenv, in_world, ret; cbn. intros [= <- <-]. cbn.
    split; [now apply Hmodel|]. do 3 (split; [reflexivity|]).
    right. do 2 (split; [reflexivity|]). exists "OPENAI_API_KEY", key.
    split; [reflexivity|]. split; [exact Hne|]. left. auto. }
  destruct (String.eqb _ "groq").
  { destruct (groq_api_key settings) as [key|] eqn:Hk; cbn; [|discriminate].
    destruct (String.eqb_spec key "") as [->|Hne]; [discriminate|].
    unfold bind, setenv, in_world, ret; cbn. intros [= <- <-]. cbn.
    split; [now apply Hmodel|]. do 3 (split; [reflexivity|]).
    right. do 2 (split; [reflexivity|]). exists "GROQ_API_KEY", key.
    split; [reflexivity|]. split; [exact Hne|]. right. auto. }
  discriminate.
Qed.
End BuildLlmFacts.

(** * The OEM chat *)

Lemma build_context_lookup {RT : Runtime} (p : TelemetryPayload) (a : AnomalyResult) :
  build_context p a !! "vin" = Some (FStr (vin p))
  /\ build_context p a !! "odometer_km" = Some (FVal (VFloat (odometer_km p)))
  /\ build_context p a !! "predicted_failure_km" = Some (opt_float (predicted_failure_km a))
  /\ build_context p a !! "component" = Some (opt_str (component a))
  /\ build_context p a !! "severity" = Some (opt_str (severity a))
  /\ build_context p a !! "anomaly_reason" = Some (opt_str (reason a)).
Proof. unfold build_context. repeat split; now simplify_map_eq. Qed.

Lemma optional_str_opt_str (name : string) (o : option string) :
  optional_str name (opt_str o) = inr o.
Proof. now destruct o. Qed.

Section OemRows.
Context {RT : Runtime} {PT : PyText}.

(** X17.  The row the OEM chat shows for a record written by the
    pipeline is read off the stored context: the component and severity
    are those of the classification (absent when the classification had
    none, whatever fallback the record's own columns hold), and the
    remaining distance is the predicted distance minus the odometer
    reading, absent when nothing was predicted. *)
Theorem fault_row_of_pipeline_record (p : TelemetryPayload) (a : AnomalyResult)
    (f : Fault.FaultRecord) :
  Fault.raw_payload f = build_context p a ->
  exists line,
    fault_row f
    = inr ({| Oem.vin := Fault.vin f;
              Oem.component := component a;
              Oem.severity := severity a;
              Oem.remaining_km :=
                match predicted_failure_km a with
                | Some km => Some (km - odometer_km p)%Q
                | None => None
                end |}, line).
Proof.
  intros Hraw.
  destruct (build_context_lookup p a) as (_ & Ho & Hp & Hc & Hs & _).
  unfold fault_row. rewrite Hraw, Ho, Hp, Hc, Hs. cbn [default from_option id].
  rewrite !optional_str_opt_str.
  eexists. f_equal. f_equal. f_equal.
  unfold remaining_of. destruct (predicted_failure_km a); reflexivity.
Qed.

(** Only the validation of a row makes the loop raise. *)
Lemma fault_row_error (f : Fault.FaultRecord) (e : exn) :
  fault_row f = inl e -> exists text, e = ValidationError text.
Proof.
  unfold fault_row, validation_error.
  destruct (optional_str "component" _), (optional_str "severity" _);
    intros [= <-]; eauto.
Qed.

Lemma fault_rows_error (faults : list Fault.FaultRecord) (e : exn) :
  fault_rows faults = inl e -> exists text, e = ValidationError text.
Proof.
  induction faults as [|f faults IH]; cbn; [discriminate|].
  destruct (fault_row f) as [e1|rl] eqn:Hrow; cbn.
  - intros [= <-]. now apply (fault_row_error f).
  - destruct (fault_rows faults) as [e2|rls]; cbn; [|discriminate].
    intros [= <-]. now apply IH.
Qed.

(** The loop makes one row per fault. *)
Lemma fault_rows_length (faults : list Fault.FaultRecord)
    (rows : list Oem.OemChatRow) (lines : list string) :
  fault_rows faults = inr (rows, lines) -> length rows = length faults.
Proof.
  revert rows lines. induction faults as [|f faults IH]; cbn; intros rows lines.
  - now intros [= <- <-].
  - destruct (fault_row f) as [e1|[row line]]; cbn; [discriminate|].
    destruct (fault_rows faults) as [e2|[rows' lines']]; cbn; [discriminate|].
    intros [= <- <-]. cbn. f_equal. now apply (IH rows' lines').
Qed.

(** X19.  The table has one row and the snapshot one line per fault, in
    the order of the faults and under their VINs. *)
Theorem fault_rows_shape (faults : list Fault.FaultRecord)
    (rows : list Oem.OemChatRow) (lines : list string) :
  fault_rows faults = inr (rows, lines) ->
  length rows = length faults
  /\ length lines = length faults
  /\ map Oem.vin rows = map Fault.vin faults.
Proof.
  revert rows lines. induction faults as [|f faults IH]; cbn; intros rows lines.
  - intros [= <- <-]. auto.
  - destruct (fault_row f) as [e1|[row line]] eqn:Hrow; cbn; [discriminate|].
    destruct (fault_rows faults) as [e2|[rows' lines']]; cbn; [discriminate|].
    intros [= <- <-]. destruct (IH rows' lines' eq_refl) as (H1 & H2 & H3).
    cbn. rewrite H1, H2, H3. repeat split.
    f_equal. revert Hrow. unfold fault_row.
    destruct (optional_str "component" _), (optional_str "severity" _);
      try discriminate.
    now intros [= <- _].
Qed.
End OemRows.

Section OemEndpoint.
Context {Llm Repo : Type}.
Context {CM : ChatModel Llm} {FR : FaultRepository Repo} {PT : PyText}.
Implicit Types (w : world Llm Repo) (env : gmap string string).

(** The client [_build_llm] returns depends on the settings alone. *)
Lemma build_llm_result_any_state (settings : Settings) (st1 st2 : @process Llm Repo) :
  fst (_build_llm settings st1) = fst (_build_llm settings st2).
Proof.
  unfold _build_llm.
  destruct (String.eqb _ "anthropic").
  { now destruct (key_missing (anthropic_api_key settings)). }
  destruct (String.eqb _ "openai").
  { now destruct (key_missing (openai_api_key settings)). }
  destruct (String.eqb _ "groq").
  { now destruct (key_missing (groq_api_key settings)). }
  reflexivity.
Qed.

(** [_build_llm] leaves the provider and the repository alone. *)
Lemma build_llm_keeps_collaborators (settings : Settings) (st : @process Llm Repo) :
  w_llm (fst (snd (_build_llm settings st))) = w_llm (fst st)
  /\ w_repo (fst (snd (_build_llm settings st))) = w_repo (fst st).
Proof.
  unfold _build_llm.
  destruct (String.eqb _ "anthropic").
  { now destruct (key_missing (anthropic_api_key settings)). }
  destruct (String.eqb _ "openai").
  { now destruct (key_missing (openai_api_key settings)). }
  destruct (String.eqb _ "groq").
  { now destruct (key_missing (groq_api_key settings)). }
  now cbn.
Qed.

(** GET /faults returns just what the repository lists; when the
    repository raises, the endpoint logs the cause and raises the HTTP
    error 500 in its place. *)
Lemma list_recent_faults_endpoint_outcome (limit : Z) w :
  (forall faults s,
      list_recent_faults limit (w_repo w) = (inr faults, s) ->
      list_recent_faults_endpoint limit w
      = (inr faults, World (w_log w) (w_calls w) (w_llm w) s (w_seed w) (w_now w)))
  /\ (forall e s,
      list_recent_faults limit (w_repo w) = (inl e, s) ->
      list_recent_faults_endpoint limit w
      = (inl (HTTPException 500 "Failed to fetch faults."),
         World (w_log w ++ [LogRecord ERROR "Error fetching recent faults: %s" [AExn e]])
               (w_calls w) (w_llm w) s (w_seed w) (w_now w))).
Proof.
  split; intros ? s Hlist; unfold list_recent_faults_endpoint, call_list_recent;
    run_monad; now rewrite Hlist.
Qed.

(** X20.  When the repository cannot list the faults, the OEM chat raises
    the HTTP error 500 for it, without building a client or calling the
    model, and leaves the environment as it was. *)
Theorem oem_chat_repository_failure (settings : Settings) (payload : Oem.OemChatRequest)
    w env (e : exn) (s : Repo) :
  list_recent_faults 300 (w_repo w) = (inl e, s) ->
  exists w',
    oem_chat_endpoint settings payload (w, env)
    = (inl (HTTPException 500 "Failed to fetch fleet faults for OEM chat."), (w', env))
    /\ w_llm w' = w_llm w
    /\ w_repo w' = s
    /\ last (w_log w') = Some (LogRecord ERROR "OEM_CHAT_DEBUG: Error fetching faults: %s"
                                  [AExn e]).
Proof.
  intros Hlist. unfold oem_chat_endpoint, in_world, call_list_recent. run_monad.
  cbn. rewrite Hlist. cbn.
  eexists. split; [reflexivity|]. cbn. repeat split.
  now rewrite last_snoc.
Qed.

(** X21.  The happy path of the OEM chat: the answer is the stripped
    content of the model's response to the prompt built from the snapshot
    lines and the stripped query; the table holds the rows of the faults,
    and is absent exactly when there are no faults. *)
Theorem oem_chat_reply (settings : Settings) (payload : Oem.OemChatRequest) w env
    (faults : list Fault.FaultRecord) (s : Repo)
    (rows : list Oem.OemChatRow) (lines : list string)
    (c : Client.t) (content : string) (g : Llm) :
  list_recent_faults 300 (w_repo w) = (inr faults, s) ->
  fault_rows faults = inr (rows, lines) ->
  fst (_build_llm settings (w, env)) = inr c ->
  invoke c (oem_messages lines (strip (str_or (Some (Oem.query payload)) ""))) (w_llm w)
  = (inr content, g) ->
  exists st',
    oem_chat_endpoint settings payload (w, env)
    = (inr {| Oem.answer := strip content;
              Oem.table := match rows with [] => None | _ => Some rows end |}, st')
    /\ w_llm (fst st') = g
    /\ w_repo (fst st') = s
    /\ (match rows with [] => None | _ => Some rows end = None <-> faults = []).
Proof.
  intros Hlist Hrows Hbuild Hinvoke.
  unfold oem_chat_endpoint, in_world, call_list_recent. run_monad.
  cbn. rewrite Hlist. cbn. rewrite Hrows. cbn.
  match goal with |- context [_build_llm settings ?st0] =>
    pose proof (build_llm_result_any_state settings st0 (w, env)) as Hsame;
    pose proof (build_llm_keeps_collaborators settings st0) as [Hllm Hrepo];
    destruct (_build_llm settings st0) as [[e|c'] [w1 env1]] end.
  { rewrite Hbuild in Hsame. discriminate. }
  rewrite Hbuild in Hsame. cbn in Hsame, Hllm, Hrepo. injection Hsame as ->.
  unfold call_invoke. cbn. cbn in Hinvoke. rewrite Hllm, Hinvoke. cbn.
  eexists. split; [reflexivity|]. cbn. split; [reflexivity|]. split; [exact Hrepo|].
  pose proof (fault_rows_length faults rows lines Hrows) as Hlen.
  destruct rows, faults; cbn in Hlen; try discriminate; split; congruence.
Qed.

(** X22.  A failure of the model side of the OEM chat, be it a missing
    key or unsupported provider in [_build_llm] or an exception of the
    model call, reaches the caller as the HTTP error 500 whose detail is
    "LLM error: " followed by the text of the exception. *)
Theorem oem_chat_llm_failure (settings : Settings) (payload : Oem.OemChatRequest) w env
    (faults : list Fault.FaultRecord) (s : Repo)
    (rows : list Oem.OemChatRow) (lines : list string) (e : exn) :
  list_recent_faults 300 (w_repo w) = (inr faults, s) ->
  fault_rows faults = inr (rows, lines) ->
  (fst (_build_llm settings (w, env)) = inl e
   \/ exists c g,
        fst (_build_llm settings (w, env)) = inr c
        /\ invoke c (oem_messages lines (strip (str_or (Some (Oem.query payload)) "")))
             (w_llm w) = (inl e, g)) ->
  exists st',
    oem_chat_endpoint settings payload (w, env)
    = (inl (HTTPException 500 ("LLM error: " +:+ str_exn e)), st')
    /\ w_repo (fst st') = s.
Proof.
  intros Hlist Hrows Hfail.
  unfold oem_chat_endpoint, in_world, call_list_recent. run_monad.
  cbn. rewrite Hlist. cbn. rewrite Hrows. cbn.
  match goal with |- context [_build_llm settings ?st0] =>
    pose proof (build_llm_result_any_state settings st0 (w, env)) as Hsame;
    pose proof (build_llm_keeps_collaborators settings st0) as [Hllm Hrepo];
    destruct (_build_llm settings st0) as [[e0|c'] [w1 env1]] end;
    cbn in Hsame, Hllm, Hrepo.
  - destruct Hfail as [Hb|(c & g & Hb & _)]; rewrite Hb in Hsame; [|discriminate].
    injection Hsame as ->. cbn.
    eexists. split; [reflexivity|]. exact Hrepo.
  - destruct Hfail as [Hb|(c & g & Hb & Hinv)]; rewrite Hb in Hsame; [discriminate|].
    injection Hsame as ->.
    unfold call_invoke. cbn. cbn in Hinv. rewrite Hllm, Hinv. cbn.
    eexists. split; [reflexivity|]. exact Hrepo.
Qed.

(** X23.  Whatever goes wrong in the OEM chat, the caller sees the HTTP
    error 500 or the validation error of a row: an exception of the
    repository or of the model never escapes as it is. *)
Theorem oem_chat_never_leaks (settings : Settings) (payload : Oem.OemChatRequest)
    (st st' : @process Llm Repo) (e : exn) :
  oem_chat_endpoint settings payload st = (inl e, st') ->
  (exists detail, e = HTTPException 500 detail)
  \/ (exists text, e = ValidationError text).
Proof.
  destruct st as [w env].
  unfold oem_chat_endpoint, in_world, call_list_recent. run_monad. cbn.
  destruct (list_recent_faults 300 (w_repo w)) as [[e1|faults] s]; cbn.
  { intros [= <- _]. eauto. }
  destruct (fault_rows faults) as [e2|[rows lines]] eqn:Hrows; cbn.
  { intros [= <- _]. right. now apply (fault_rows_error faults). }
  match goal with |- context [_build_llm settings ?st0] =>
    destruct (_build_llm settings st0) as [[e3|c] [w1 env1]] end; cbn.
  { intros [= <- _]. eauto. }
  unfold call_invoke. cbn.
  destruct (invoke c _ (w_llm w1)) as [[e4|content] g]; cbn.
  { intros [= <- _]. eauto. }
  discriminate.
Qed.
End OemEndpoint.

(** * The console's severity helpers *)

Lemma severity_rank_cases (sev : option string) :
  let l := lower (str_or sev "") in
  (l = "low" /\ _severity_rank sev = 0%Z /\ status_from_severity sev = "Warning")
  \/ (l = "medium" /\ _severity_rank sev = 1%Z /\ status_from_severity sev = "Warning")
  \/ (l = "high" /\ _severity_rank sev = 2%Z /\ status_from_severity sev = "Warning")
  \/ (l = "critical" /\ _severity_rank sev = 3%Z /\ status_from_severity sev = "Critical")
  \/ (~ In l ["low"; "medium"; "high"; "critical"]
      /\ _severity_rank sev = (-1)%Z /\ status_from_severity sev = "Healthy").
Proof.
  cbn zeta. unfold _severity_rank, status_from_severity, severity_order.
  set (l := lower (str_or sev "")).
  destruct (String.eqb_spec l "critical") as [->|Hc]; [auto 10|].
  destruct (String.eqb_spec l "high") as [->|Hh]; [auto 10|].
  destruct (decide (l = "medium")) as [->|Hm]; [auto 10|].
  destruct (decide (l = "low")) as [->|Hl]; [auto 10|].
  do 4 right.
  rewrite !lookup_insert_ne, lookup_empty by congruence.
  rewrite bool_decide_eq_false_2.
  - split; [|auto]. cbn. intuition congruence.
  - rewrite !elem_of_cons, elem_of_nil. intuition congruence.
Qed.

(** X24.  The console calls a vehicle Healthy exactly when the severity
    is not ranked (rank -1), and Critical exactly at the top rank; every
    other ranked severity is a Warning. *)
Theorem status_follows_rank (sev : option string) :
  (status_from_severity sev = "Healthy" <-> _severity_rank sev = (-1)%Z)
  /\ (status_from_severity sev = "Critical" <-> _severity_rank sev = 3%Z)
  /\ (status_from_severity sev = "Warning" <-> (0 <= _severity_rank sev <= 2)%Z)
  /\ (-1 <= _severity_rank sev <= 3)%Z.
Proof.
  destruct (severity_rank_cases sev)
    as [(_ & -> & ->)|[(_ & -> & ->)|[(_ & -> & ->)|[(_ & -> & ->)|(_ & -> & ->)]]]];
    repeat split; intros; try discriminate; try lia; try reflexivity.
Qed.

(** X25.  The console's order of the severities agrees with the
    detector's urgency: of two severities a fault record accepts, the one
    ranked higher has the shorter predicted distance. *)
Theorem rank_agrees_with_increment (s1 s2 : string) :
  Fault.severity_literal s1 = true ->
  Fault.severity_literal s2 = true ->
  (_severity_rank (Some s1) < _severity_rank (Some s2))%Z
  <-> (severity_increment s2 < severity_increment s1)%Q.
Proof.
  unfold Fault.severity_literal. intros H1 H2.
  apply bool_decide_eq_true, list_elem_of_In in H1.
  apply bool_decide_eq_true, list_elem_of_In in H2.
  cbn in H1, H2.
  destruct H1 as [<-|[<-|[<-|[<-|[]]]]]; destruct H2 as [<-|[<-|[<-|[<-|[]]]]];
    vm_compute; split; intros H; try reflexivity; try discriminate H.
Qed.

(** X26.  The fleet risk score lies between 0 and 100; it is 100 exactly
    when no fault is high or critical (in any case), and one more fault
    never raises it. *)
Theorem fleet_risk_score_bounds (col : list (option string)) (sev : option string) :
  (0 <= compute_fleet_risk_score col <= 100)%Z
  /\ (compute_fleet_risk_score col = 100%Z
      <-> Forall (fun s => lowered_is "high" s = false /\ lowered_is "critical" s = false) col)
  /\ (compute_fleet_risk_score (sev :: col) <= compute_fleet_risk_score col)%Z.
Proof.
  assert (Hzero : forall (name : string) (l : list (option string)),
            length (filter (fun s => lowered_is name s = true) l) = 0%nat
            <-> Forall (fun s => lowered_is name s = false) l).
  { intros name l. induction l as [|x l IH].
    - split; [constructor|reflexivity].
    - rewrite filter_cons.
      destruct (decide (lowered_is name x = true)) as [Hx|Hx]; cbn [length].
      + split; [discriminate|]. intros HF. inversion HF; congruence.
      + rewrite IH. apply not_true_is_false in Hx.
        split; [now constructor|]. intros HF. now inversion HF. }
  assert (Hbounds : forall l : list (option string),
            (0 <= compute_fleet_risk_score l <= 100)%Z).
  { intros [|x l]; cbn -[filter]; lia. }
  split; [apply Hbounds|]. split.
  - destruct col as [|x col]; [cbn; split; [constructor|reflexivity]|].
    unfold compute_fleet_risk_score.
    set (h := length (filter (fun s => lowered_is "high" s = true) (x :: col))).
    set (c := length (filter (fun s => lowered_is "critical" s = true) (x :: col))).
    assert (Hh := Hzero "high" (x :: col)). assert (Hc := Hzero "critical" (x :: col)).
    fold h in Hh. fold c in Hc.
    rewrite Forall_and, <- Hh, <- Hc. lia.
  - destruct col as [|x col]; [apply Hbounds|].
    unfold compute_fleet_risk_score.
    rewrite !(filter_cons _ sev).
    destruct (decide (lowered_is "high" sev = true));
      destruct (decide (lowered_is "critical" sev = true)); cbn [length]; lia.
Qed.

(** * The driver chat and the ingest route *)

Lemma optional_float_opt_float {PT : PyText} (name : string) (o : option Q) :
  optional_float name (opt_float o) = inr o.
Proof. now destruct o. Qed.

Section DriverChatFacts.
Context {Llm Repo : Type}.
Context {CM : ChatModel Llm} {FR : FaultRepository Repo} {RT : Runtime} {PT : PyText}
        {CR : ChatRepr}.
Implicit Types (w : world Llm Repo) (env : gmap string string).

(** X27.  When the repository cannot list the faults of the vehicle, the
    driver chat re-raises the repository's own exception (not an HTTP
    error), after logging it, and never reaches the model. *)
Theorem chat_repository_failure (settings : Settings) (payload : ChatRequest.t)
    w env (e : exn) (s : Repo) :
  list_faults_for_vin (strip (ChatRequest.vin payload)) (w_repo w) = (inl e, s) ->
  exists w',
    chat_endpoint settings payload (w, env) = (inl e, (w', env))
    /\ w_llm w' = w_llm w
    /\ w_repo w' = s
    /\ last (w_log w')
       = Some (LogRecord ERROR "CHAT_DEBUG: Error retrieving faults: %s" [AExn e]).
Proof.
  intros Hlist. unfold chat_endpoint, in_world, call_list_for_vin, logger_error.
  run_monad. cbn. rewrite Hlist. cbn.
  eexists. split; [reflexivity|]. cbn. repeat split.
  now rewrite last_snoc.
Qed.

(** X28.  For a vehicle without faults the driver chat tells the model
    "No active faults detected." and answers with the stripped reply and
    no severity, component, predicted distance or reason. *)
Theorem chat_without_faults (settings : Settings) (payload : ChatRequest.t) w env
    (s : Repo) (c : Client.t) (content : string) (g : Llm) :
  list_faults_for_vin (strip (ChatRequest.vin payload)) (w_repo w) = (inr [], s) ->
  fst (_build_llm settings (w, env)) = inr c ->
  invoke c (chat_messages (strip (ChatRequest.vin payload)) "No active faults detected."
              (strip (ChatRequest.message payload))) (w_llm w)
  = (inr content, g) ->
  exists st',
    chat_endpoint settings payload (w, env)
    = (inr {| ChatResponse.vin := strip (ChatRequest.vin payload);
              ChatResponse.user_message := strip (ChatRequest.message payload);
              ChatResponse.bot_message := strip content;
              ChatResponse.severity := None; ChatResponse.component := None;
              ChatResponse.predicted_failure_km := None;
              ChatResponse.anomaly_reason := None |}, st')
    /\ w_llm (fst st') = g.
Proof.
  intros Hlist Hbuild Hinvoke.
  unfold chat_endpoint, in_world, call_list_for_vin, logger_error. run_monad.
  cbn -[replace_newlines chat_messages new_chat_response fault_context_of fault_view].
  rewrite Hlist.
  cbn -[replace_newlines chat_messages new_chat_response fault_context_of fault_view].
  match goal with |- context [_build_llm settings ?st0] =>
    pose proof (build_llm_result_any_state settings st0 (w, env)) as Hsame;
    pose proof (build_llm_keeps_collaborators settings st0) as [Hllm Hrepo];
    destruct (_build_llm settings st0) as [[e|c'] [w1 env1]] end.
  { rewrite Hbuild in Hsame. discriminate. }
  rewrite Hbuild in Hsame. cbn in Hsame, Hllm, Hrepo. injection Hsame as ->.
  unfold call_invoke.
  cbn -[replace_newlines chat_messages new_chat_response fault_context_of fault_view].
  rewrite Hllm, Hinvoke.
  cbn -[replace_newlines chat_messages fault_context_of fault_view].
  eexists. split; reflexivity.
Qed.

(** X29.  The driver chat answers from the newest fault alone: for a
    record written by the pipeline, the prompt is built from the first
    fault of the list, and the response carries the severity, component,
    predicted distance and reason of its classification, whatever faults
    follow in the list. *)
Theorem chat_uses_newest_fault (settings : Settings) (payload : ChatRequest.t) w env
    (p : TelemetryPayload) (a : AnomalyResult)
    (f : Fault.FaultRecord) (rest : list Fault.FaultRecord)
    (s : Repo) (c : Client.t) (content : string) (g : Llm) :
  list_faults_for_vin (strip (ChatRequest.vin payload)) (w_repo w) = (inr (f :: rest), s) ->
  Fault.raw_payload f = build_context p a ->
  fst (_build_llm settings (w, env)) = inr c ->
  invoke c (chat_messages (strip (ChatRequest.vin payload))
              (fault_context_of (fault_view f))
              (strip (ChatRequest.message payload))) (w_llm w)
  = (inr content, g) ->
  exists st',
    chat_endpoint settings payload (w, env)
    = (inr {| ChatResponse.vin := strip (ChatRequest.vin payload);
              ChatResponse.user_message := strip (ChatRequest.message payload);
              ChatResponse.bot_message := strip content;
              ChatResponse.severity := severity a;
              ChatResponse.component := component a;
              ChatResponse.predicted_failure_km := predicted_failure_km a;
              ChatResponse.anomaly_reason := reason a |}, st').
Proof.
  intros Hlist Hraw Hbuild Hinvoke.
  assert (Hview : fault_view f
                  = (opt_str (component a), opt_str (severity a), opt_str (reason a),
                     opt_float (predicted_failure_km a))).
  { destruct (build_context_lookup p a) as (_ & _ & Hp & Hc & Hs & Hr).
    unfold fault_view. now rewrite Hraw, Hp, Hc, Hs, Hr. }
  unfold chat_endpoint, in_world, call_list_for_vin, logger_error. run_monad.
  cbn -[replace_newlines chat_messages new_chat_response fault_context_of fault_view].
  rewrite Hlist.
  cbn -[replace_newlines chat_messages new_chat_response fault_context_of fault_view].
  match goal with |- context [_build_llm settings ?st0] =>
    pose proof (build_llm_result_any_state settings st0 (w, env)) as Hsame;
    pose proof (build_llm_keeps_collaborators settings st0) as [Hllm Hrepo];
    destruct (_build_llm settings st0) as [[e|c'] [w1 env1]] end.
  { rewrite Hbuild in Hsame. discriminate. }
  rewrite Hbuild in Hsame. cbn in Hsame, Hllm, Hrepo. injection Hsame as ->.
  unfold call_invoke.
  cbn -[replace_newlines chat_messages new_chat_response fault_context_of fault_view].
  rewrite Hllm, Hinvoke.
  cbn -[replace_newlines chat_messages new_chat_response fault_context_of fault_view].
  rewrite Hview. unfold new_chat_response.
  rewrite !optional_str_opt_str, optional_float_opt_float.
  cbn -[replace_newlines chat_messages fault_context_of fault_view].
  eexists. reflexivity.
Qed.
End DriverChatFacts.

Section IngestRouteFacts.
Context {Llm Repo : Type}.
Context {TG : TextGeneration Llm} {FR : FaultRepository Repo} {RT : Runtime}.

(** X30.  The ingest route needs a client even when nothing is wrong with
    the vehicle: if [_build_llm] raises for the settings, every request
    fails with that error before the sample is classified (the process is
    left as it was); otherwise the route runs [ingest_telemetry] in the
    world the construction of the client leaves. *)
Theorem ingest_route_needs_client (settings : Settings) (payload : TelemetryPayload)
    (w : world Llm Repo) (env : gmap string string) :
  (forall e,
      fst (_build_llm settings (w, env)) = inl e ->
      ingest_route settings payload (w, env) = (inl e, (w, env)))
  /\ (forall c st1,
      _build_llm settings (w, env) = (inr c, st1) ->
      ingest_route settings payload (w, env)
      = (fst (ingest_telemetry payload (fst st1)),
         (snd (ingest_telemetry payload (fst st1)), snd st1))).
Proof.
  unfold ingest_route, get_orchestrator, new_orchestrator. split.
  - intros e He. run_monad.
    destruct (_build_llm settings (w, env)) as [[e'|c] st'] eqn:Hb; [|discriminate He].
    cbn in He. injection He as ->.
    rewrite (build_llm_raise_state settings (w, env) e st' Hb).
    reflexivity.
  - intros c st1 Hb. run_monad. rewrite Hb. unfold in_world. cbn [fst snd].
    destruct (ingest_telemetry payload (fst st1)) as [[e|r] w2]; reflexivity.
Qed.
End IngestRouteFacts.

(** * Instances of the further properties *)

(** The classification of the hot sample. *)
Lemma detect_result_well_formed_witness :
  fst (detect (PModel hot_sample) demo_world) = inr (coolant_result hot_readings)
  /\ is_anomaly (coolant_result hot_readings) = true
  /\ component (coolant_result hot_readings) = Some "coolant_pump"
  /\ exists s, severity (coolant_result hot_readings) = Some s
               /\ In s ["low"; "medium"; "high"; "critical"].
Proof.
  split; [reflexivity|].
  destruct (detect_result_well_formed (PModel hot_sample) demo_world
              (coolant_result hot_readings) eq_refl)
    as [(Hno & _)|(Ha & _ & (s & Hs & Hin & _) & _)]; [discriminate Hno|].
  split; [exact Ha|]. split; [reflexivity|]. exists s. auto.
Defined.

(** A dict that only names the engine speed and the coolant pressure. *)
Lemma falsy_entries_give_no_anomaly_witness :
  fst (detect (PDict (<["engine_rpm" := VInt 9000]>
                       (<["coolant_pressure_bar" := VFloat 5]>
                       (<["battery_voltage" := VNone]> ∅))))
         demo_world) = inr no_anomaly.
Proof.
  exact (falsy_entries_give_no_anomaly
           (<["engine_rpm" := VInt 9000]>
              (<["coolant_pressure_bar" := VFloat 5]>
              (<["battery_voltage" := VNone]> ∅))) demo_world
           eq_refl eq_refl eq_refl eq_refl eq_refl).
Defined.

Lemma predicted_distance_bounds_witness :
  exists res km,
    fst (detect (PModel hot_sample) demo_world) = inr res
    /\ predicted_failure_km res = Some km
    /\ (200 <= km)%Q /\ (10000 <= km)%Q.
Proof.
  destruct (predicted_distance_bounds hot_sample demo_world eq_refl)
    as (res & Hres & Hkm).
  assert (Ha : is_anomaly res = true).
  { assert (Hd : fst (detect (PModel hot_sample) demo_world)
                 = inr (coolant_result hot_readings)) by reflexivity.
    rewrite Hd in Hres. injection Hres as <-. reflexivity. }
  destruct (Hkm Ha) as (km & Hsome & H200 & Hodo & _).
  exists res, km. auto.
Defined.

(** 130 degrees against 140 degrees. *)
Lemma hotter_is_never_later_witness :
  exists res1 res2,
    fst (detect (PModel (sample 130 1.0 1500 10 13.0 10000)) demo_world) = inr res1
    /\ fst (detect (PModel hot_sample) demo_world) = inr res2
    /\ severity res1 = Some "high" /\ severity res2 = Some "critical".
Proof.
  destruct (hotter_is_never_later (sample 130 1.0 1500 10 13.0 10000) hot_sample
              demo_world ltac:(cbn; lra))
    as (res1 & res2 & H1 & H2 & _).
  exists res1, res2. split; [exact H1|]. split; [exact H2|].
  assert (Hd1 : fst (detect (PModel (sample 130 1.0 1500 10 13.0 10000)) demo_world)
                = inr (coolant_result
                         {| coolant_temp := 130; coolant_pressure := 1.0; battery := 13.0;
                            rpm := 1500; vibration := 10; odometer := 10000 |}))
    by reflexivity.
  assert (Hd2 : fst (detect (PModel hot_sample) demo_world)
                = inr (coolant_result hot_readings)) by reflexivity.
  rewrite Hd1 in H1. rewrite Hd2 in H2.
  injection H1 as <-. injection H2 as <-. split; reflexivity.
Defined.




(** The default settings carry no key. *)
Lemma build_llm_failure_is_clean_witness :
  exists text,
    _build_llm default_settings (fleet_world, ∅)
    = (inl (RuntimeError text), (fleet_world, ∅)).
Proof.
  destruct (build_llm_failure_is_clean default_settings (fleet_world, ∅)
              (RuntimeError "ANTHROPIC_API_KEY is not set") (fleet_world, ∅) eq_refl)
    as [_ [text Ht]].
  exists text. rewrite <- Ht. reflexivity.
Defined.

(** The provider is spelt OpenAI and the model is left empty. *)
Lemma build_llm_client_witness :
  exists st',
    _build_llm openai_settings (fleet_world, ∅) = (inr openai_client, st')
    /\ snd st' = <["OPENAI_API_KEY" := "sk-test"]> ∅.
Proof.
  eexists. split; [reflexivity|].
  destruct (build_llm_client openai_settings (fleet_world, ∅) openai_client _ eq_refl)
    as (_ & _ & _ & _ & [(Hcls & _)|(_ & _ & name & key & Henv & _ & _)]).
  - discriminate Hcls.
  - reflexivity.
Defined.

Lemma fault_row_of_pipeline_record_witness :
  exists line, fault_row (PT:=demo_text) hot_fault = inr (hot_row, line).
Proof.
  destruct (fault_row_of_pipeline_record (RT:=demo_runtime) (PT:=demo_text)
              hot_sample (coolant_result hot_readings) hot_fault eq_refl)
    as [line Hrow].
  exists line. exact Hrow.
Defined.

Lemma fault_rows_shape_witness :
  exists rows lines,
    fault_rows (PT:=demo_text) [hot_fault; quiet_fault] = inr (rows, lines)
    /\ length rows = 2%nat
    /\ map Oem.vin rows = ["WDB1234567F000001"; "WDB1234567F000001"].
Proof.
  eexists _, _. split; [reflexivity|].
  destruct (fault_rows_shape (PT:=demo_text) [hot_fault; quiet_fault] _ _ eq_refl)
    as (Hlen & _ & Hvin).
  split; [exact Hlen|exact Hvin].
Defined.

Lemma oem_chat_repository_failure_witness :
  exists w',
    oem_chat_endpoint (CM:=canned_chat) (FR:=down_repo) (PT:=demo_text)
      openai_settings {| Oem.query := " which cars? " |} (fleet_world, ∅)
    = (inl (HTTPException 500 "Failed to fetch fleet faults for OEM chat."), (w', ∅))
    /\ w_llm w' = 0%nat.
Proof.
  destruct (oem_chat_repository_failure (CM:=canned_chat) (FR:=down_repo) (PT:=demo_text)
              openai_settings {| Oem.query := " which cars? " |} fleet_world ∅
              (Exception "database is locked") [hot_fault] eq_refl)
    as (w' & Hrun & Hllm & _).
  exists w'. split; [exact Hrun|exact Hllm].
Defined.

Lemma oem_chat_reply_witness :
  exists st',
    oem_chat_endpoint (CM:=canned_chat) (FR:=memory_repo) (PT:=demo_text)
      openai_settings {| Oem.query := " which cars? " |} (fleet_world, ∅)
    = (inr {| Oem.answer := "Two vehicles need attention.";
              Oem.table := Some [hot_row] |}, st').
Proof.
  destruct (oem_chat_reply (CM:=canned_chat) (FR:=memory_repo) (PT:=demo_text)
              openai_settings {| Oem.query := " which cars? " |} fleet_world ∅
              [hot_fault] [hot_fault] [hot_row]
              ["VIN=WDB1234567F000001 | component=coolant_pump | severity=critical | remaining_km=200.0"]
              openai_client "  Two vehicles need attention.  " 1%nat
              eq_refl eq_refl eq_refl eq_refl)
    as (st' & Hrun & _).
  exists st'. exact Hrun.
Defined.

(** The default settings carry no key: the chat answers 500. *)
Lemma oem_chat_llm_failure_witness :
  exists st',
    oem_chat_endpoint (CM:=canned_chat) (FR:=memory_repo) (PT:=demo_text)
      default_settings {| Oem.query := " which cars? " |} (fleet_world, ∅)
    = (inl (HTTPException 500 "LLM error: ANTHROPIC_API_KEY is not set"), st').
Proof.
  destruct (oem_chat_llm_failure (CM:=canned_chat) (FR:=memory_repo) (PT:=demo_text)
              default_settings {| Oem.query := " which cars? " |} fleet_world ∅
              [hot_fault] [hot_fault] [hot_row]
              ["VIN=WDB1234567F000001 | component=coolant_pump | severity=critical | remaining_km=200.0"]
              (RuntimeError "ANTHROPIC_API_KEY is not set")
              eq_refl eq_refl (or_introl eq_refl))
    as (st' & Hrun & _).
  exists st'. exact Hrun.
Defined.

(** The model raises: what reaches the caller is the HTTP error. *)
Lemma oem_chat_never_leaks_witness :
  exists detail st',
    oem_chat_endpoint (CM:=failing_chat) (FR:=memory_repo) (PT:=demo_text)
      openai_settings {| Oem.query := " which cars? " |} (fleet_world, ∅)
    = (inl (HTTPException 500 detail), st').
Proof.
  assert (Hrun : exists st',
             oem_chat_endpoint (CM:=failing_chat) (FR:=memory_repo) (PT:=demo_text)
               openai_settings {| Oem.query := " which cars? " |} (fleet_world, ∅)
             = (inl (HTTPException 500 "LLM error: rate limited"), st'))
    by (eexists; vm_compute; reflexivity).
  destruct Hrun as [st' Hrun].
  destruct (oem_chat_never_leaks (CM:=failing_chat) (FR:=memory_repo) (PT:=demo_text)
              openai_settings {| Oem.query := " which cars? " |} (fleet_world, ∅) st' _
              Hrun) as [[detail Hd]|[text Ht]].
  - exists detail, st'. rewrite <- Hd. exact Hrun.
  - discriminate Ht.
Defined.

Lemma rank_agrees_with_increment_witness :
  (_severity_rank (Some "high") < _severity_rank (Some "critical"))%Z
  /\ (severity_increment "critical" < severity_increment "high")%Q.
Proof.
  assert (H := rank_agrees_with_increment "high" "critical" eq_refl eq_refl).
  split; [reflexivity|]. apply H. reflexivity.
Defined.

Lemma chat_repository_failure_witness :
  exists w',
    chat_endpoint (CM:=canned_chat) (FR:=down_repo) (RT:=demo_runtime) (PT:=demo_text)
      (CR:=demo_repr) openai_settings
      {| ChatRequest.vin := " WDB1234567F000001 "; ChatRequest.message := "Is it safe?" |}
      (fleet_world, ∅)
    = (inl (Exception "database is locked"), (w', ∅))
    /\ w_llm w' = 0%nat.
Proof.
  destruct (chat_repository_failure
              (CM:=canned_chat) (FR:=down_repo) (RT:=demo_runtime) (PT:=demo_text)
              (CR:=demo_repr) openai_settings
              {| ChatRequest.vin := " WDB1234567F000001 ";
                 ChatRequest.message := "Is it safe?" |}
              fleet_world ∅ (Exception "database is locked") [hot_fault] eq_refl)
    as (w' & Hrun & Hllm & _).
  exists w'. split; [exact Hrun|exact Hllm].
Defined.

(** A vehicle the repository knows nothing of. *)
Lemma chat_without_faults_witness :
  exists st',
    chat_endpoint (CM:=canned_chat) (FR:=memory_repo) (RT:=demo_runtime) (PT:=demo_text)
      (CR:=demo_repr) openai_settings
      {| ChatRequest.vin := " WDB0000000F000009 "; ChatRequest.message := "Is it safe?" |}
      (fleet_world, ∅)
    = (inr {| ChatResponse.vin := "WDB0000000F000009";
              ChatResponse.user_message := "Is it safe?";
              ChatResponse.bot_message := "Two vehicles need attention.";
              ChatResponse.severity := None; ChatResponse.component := None;
              ChatResponse.predicted_failure_km := None;
              ChatResponse.anomaly_reason := None |}, st').
Proof.
  destruct (chat_without_faults
              (CM:=canned_chat) (FR:=memory_repo) (RT:=demo_runtime) (PT:=demo_text)
              (CR:=demo_repr) openai_settings
              {| ChatRequest.vin := " WDB0000000F000009 ";
                 ChatRequest.message := "Is it safe?" |}
              fleet_world ∅ [hot_fault] openai_client
              "  Two vehicles need attention.  " 1%nat eq_refl eq_refl eq_refl)
    as (st' & Hrun & _).
  exists st'. exact Hrun.
Defined.

(** The vehicle of the hot sample. *)
Lemma chat_uses_newest_fault_witness :
  exists st',
    chat_endpoint (CM:=canned_chat) (FR:=memory_repo) (RT:=demo_runtime) (PT:=demo_text)
      (CR:=demo_repr) openai_settings
      {| ChatRequest.vin := " WDB1234567F000001 "; ChatRequest.message := "Is it safe?" |}
      (fleet_world, ∅)
    = (inr {| ChatResponse.vin := "WDB1234567F000001";
              ChatResponse.user_message := "Is it safe?";
              ChatResponse.bot_message := "Two vehicles need attention.";
              ChatResponse.severity := Some "critical";
              ChatResponse.component := Some "coolant_pump";
              ChatResponse.predicted_failure_km := Some 10200%Q;
              ChatResponse.anomaly_reason := reason (coolant_result hot_readings) |}, st').
Proof.
  destruct (chat_uses_newest_fault
              (CM:=canned_chat) (FR:=memory_repo) (RT:=demo_runtime) (PT:=demo_text)
              (CR:=demo_repr) openai_settings
              {| ChatRequest.vin := " WDB1234567F000001 ";
                 ChatRequest.message := "Is it safe?" |}
              fleet_world ∅ hot_sample (coolant_result hot_readings) hot_fault []
              [hot_fault] openai_client "  Two vehicles need attention.  " 1%nat
              eq_refl eq_refl eq_refl eq_refl)
    as (st' & Hrun).
  exists st'. exact Hrun.
Defined.

(** No key is configured, and the sample is healthy. *)
Lemma ingest_route_needs_client_witness :
  ingest_route (TG:=scripted_llm None) (FR:=memory_repo) (RT:=demo_runtime)
    default_settings quiet_sample (demo_world, ∅)
  = (inl (RuntimeError "ANTHROPIC_API_KEY is not set"), (demo_world, ∅)).
Proof.
  apply (proj1 (ingest_route_needs_client
                  (TG:=scripted_llm None) (FR:=memory_repo) (RT:=demo_runtime)
                  default_settings quiet_sample demo_world ∅)).
  reflexivity.
Defined.
